(** * Photoreport: the layout engine of [pdfreport.py]

    A shallow embedding of the two rendering functions of the program,
    [generate_thumbnail] (the preview of one page record) and
    [generate_pdf] (the printed report), with the properties of their
    layout arithmetic, and of the buttons of the script that keep the
    list of page records.

    Conventions of the embedding:
    - a Python [int] is a [Z]; [//] and [%] are [Z.div] and [Z.modulo]
      (both round towards minus infinity, as in Python);
    - a Python [float] is a [Q]: true division and the products of the
      layout are computed exactly, without rounding; the module
      [Doubles] has lines 140-164 once more on binary64 floats, where
      a property depends on the rounding;
    - a Python [str] is a [string] whose characters are code points
      below 256;
    - a call that may raise returns a [result]; the first exception
      aborts the whole computation, as no [try] surrounds the image
      loops of the source. *)

From Stdlib Require Import ZArith QArith Qround Qabs List String Ascii Bool.
From Stdlib Require Import Lia Lqa DecimalString.
From Stdlib Require Floats Uint63.
Import ListNotations.

Local Open Scope Z_scope.

(** ** Exceptions *)

Inductive exn : Type :=
| UnidentifiedImageError   (* Image.open on bytes that are no image *)
| OSError                  (* Image.save: mode cannot be written as JPEG *)
| ZeroDivisionError
| RuntimeError.            (* FPDF: drawing with no page open *)

Inductive result (A : Type) : Type :=
| Ok (a : A)
| Raise (e : exn).

Arguments Ok {A} a.
Arguments Raise {A} e.

Definition bind {A B : Type} (m : result A) (k : A -> result B) : result B :=
  match m with
  | Ok a => k a
  | Raise e => Raise e
  end.

Notation "x <- m ;; k" := (bind m (fun x => k))
  (at level 61, m at next level, right associativity).
Notation "' pat <- m ;; k" := (bind m (fun x => match x with pat => k end))
  (at level 61, pat pattern, m at next level, right associativity).

(** ** Numbers *)

(** [a / b] on floats. *)
Definition truediv (a b : Q) : result Q :=
  if Qeq_bool b 0 then Raise ZeroDivisionError else Ok (a / b)%Q.

(** [a > b] on floats. *)
Definition Qgt_bool (a b : Q) : bool := negb (Qle_bool a b).

Coercion inject_Z : Z >-> Q.

(** ** Strings *)

(** [str(n)] for an integer. *)
Definition str (n : Z) : string := NilZero.string_of_int (Z.to_int n).

(** The line boundaries of [str.splitlines] among the code points below
    256: LF, VT, FF, CR, FS, GS, RS and NEL. *)
Definition is_line_boundary (c : ascii) : bool :=
  let n := nat_of_ascii c in
  ((n =? 10) || (n =? 11) || (n =? 12) || (n =? 13) ||
   (n =? 28) || (n =? 29) || (n =? 30) || (n =? 133))%nat.

Definition is_CR (c : ascii) : bool := (nat_of_ascii c =? 13)%nat.
Definition is_LF (c : ascii) : bool := (nat_of_ascii c =? 10)%nat.

(** [splitlines_from cur s]: the lines of [s], the first one prefixed by
    the characters [cur] already read.  A boundary closes the current
    line (CR LF counts as one boundary); the text after the last
    boundary is a line only when it is not empty. *)
Fixpoint splitlines_from (cur s : string) : list string :=
  match s with
  | EmptyString =>
      match cur with
      | EmptyString => []
      | _ => [cur]
      end
  | String c rest =>
      if is_line_boundary c then
        cur :: (if is_CR c then
                  match rest with
                  | String c' rest' =>
                      if is_LF c' then splitlines_from EmptyString rest'
                      else splitlines_from EmptyString rest
                  | EmptyString => splitlines_from EmptyString rest
                  end
                else splitlines_from EmptyString rest)
      else splitlines_from (cur ++ String c EmptyString) rest
  end.

(** [s.splitlines()] *)
Definition splitlines (s : string) : list string :=
  splitlines_from EmptyString s.

(** [enumerate(l, start)] *)
Fixpoint enumerate {A : Type} (start : Z) (l : list A) : list (Z * A) :=
  match l with
  | [] => []
  | a :: l' => (start, a) :: enumerate (start + 1) l'
  end.

(** [[f(a) for a in l]] when [f] may raise: the first exception ends
    the traversal. *)
Fixpoint mapM {A B : Type} (f : A -> result B) (l : list A) : result (list B) :=
  match l with
  | [] => Ok []
  | a :: l' =>
      b <- f a ;;
      bs <- mapM f l' ;;
      Ok (b :: bs)
  end.

(** ** Images (PIL) *)

(** What the program observes of a decoded image: its pixel size and
    its mode. *)
Record Image : Type := mkImage {
  size : Z * Z;          (* (width, height) *)
  mode : string
}.

(** [img.convert("RGB")] *)
Definition convert_RGB (img : Image) : Image :=
  {| size := size img; mode := "RGB" |}.

(** The modes the JPEG encoder of PIL writes. *)
Definition jpeg_modes : list string :=
  ["1"; "L"; "RGB"; "RGBX"; "CMYK"; "YCbCr"]%string.

(** [img.save(name, format="JPEG")]: fails on a mode the encoder does
    not write (RGBA or P, for instance). *)
Definition save_JPEG (img : Image) : result unit :=
  if existsb (String.eqb (mode img)) jpeg_modes then Ok tt else Raise OSError.

(** [round_aspect] of [Image.thumbnail]:
    [max(min(floor(number), ceil(number), key=key), 1)].  [min] keeps
    its first argument unless the second has a strictly smaller key.
    The keys are compared exactly here; Pillow compares them as
    doubles, and where floor and ceiling are equally near it may keep
    the ceiling. *)
Definition round_aspect (number : Q) (key : Z -> Q) : Z :=
  let lo := Qfloor number in
  let hi := Qceiling number in
  Z.max (if Qle_bool (key lo) (key hi) then lo else hi) 1.

(** The size [Image.thumbnail(size)] gives an image of size [self]
    (Pillow 7 and later): unchanged when the image already fits,
    otherwise the requested box with one side shortened to keep the
    aspect ratio, rounded to a whole number of pixels and at least 1. *)
Definition thumbnail_size (self box : Z * Z) : result (Z * Z) :=
  let '(width, height) := self in
  let '(x, y) := box in
  if (width <=? x) && (height <=? y) then Ok self
  else
    aspect <- truediv width height ;;
    box_aspect <- truediv x y ;;
    if Qle_bool aspect box_aspect then
      Ok (round_aspect (y * aspect)%Q
            (fun n => Qabs (aspect - n / y)%Q), y)
    else
      number <- truediv x aspect ;;
      Ok (x, round_aspect number
               (fun n => if n =? 0 then 0%Q else Qabs (aspect - x / n)%Q)).

(** [img.thumbnail(box)] (the image is resized in place in the source;
    here the resized image is returned). *)
Definition thumbnail (img : Image) (box : Z * Z) : result Image :=
  new_size <- thumbnail_size (size img) box ;;
  Ok {| size := new_size; mode := mode img |}.

(** ** Page records *)

(** One entry of [st.session_state.pages]. *)
Record Page (UploadedFile : Type) : Type := mkPage {
  images : list UploadedFile;
  title : string;
  description : string
}.

Arguments mkPage {UploadedFile} _ _ _.
Arguments images {UploadedFile} _.
Arguments title {UploadedFile} _.
Arguments description {UploadedFile} _.

(** ** [generate_thumbnail] *)

Module Thumbnail.

(** What is put on the preview canvas, in drawing order. *)
Inductive canvas_op : Type :=
| Text (xy : Z * Z) (s : string)      (* draw.text(xy, s, ...) *)
| Paste (img : Image) (xy : Z * Z).   (* thumb.paste(img, xy) *)

Record Canvas : Type := mkCanvas {
  canvas_size : Z * Z;
  bg_color : Z * Z * Z;
  drawn : list canvas_op
}.

(** [Image.new("RGB", size, color)] *)
Definition Image_new (sz : Z * Z) (color : Z * Z * Z) : Canvas :=
  {| canvas_size := sz; bg_color := color; drawn := [] |}.

Definition put (op : canvas_op) (thumb : Canvas) : Canvas :=
  {| canvas_size := canvas_size thumb;
     bg_color := bg_color thumb;
     drawn := drawn thumb ++ [op] |}.

Definition width : Z := 600.
Definition height : Z := 400.
Definition img_w : Z := 140.
Definition img_h : Z := 100.
Definition start_x : Z := 10.
Definition start_y : Z := 40.
Definition gap : Z := 10.
Definition desc_start : Z := 220.

(** Grid cell of the image of index [i]: two columns, always. *)
Definition cell_col (i : Z) : Z := i mod 2.
Definition cell_row (i : Z) : Z := i / 2.

Section WithDecoder.

Variable UploadedFile : Type.
(** [Image.open]: the decoded image, or the exception raised on a
    blob that is no image. *)
Variable Image_open : UploadedFile -> result Image.

(** The body of the image loop, over the enumerated images. *)
Fixpoint paste_images (thumb : Canvas) (l : list (Z * UploadedFile))
  : result Canvas :=
  match l with
  | [] => Ok thumb
  | (i, uploaded_img) :: rest =>
      img <- Image_open uploaded_img ;;
      let img := convert_RGB img in
      img <- thumbnail img (img_w, img_h) ;;
      let x := start_x + cell_col i * (img_w + gap) in
      let y := start_y + cell_row i * (img_h + gap) in
      paste_images (put (Paste img (x, y)) thumb) rest
  end.

(** The body of the description loop. *)
Fixpoint draw_lines (thumb : Canvas) (l : list (Z * string)) : Canvas :=
  match l with
  | [] => thumb
  | (i, line) :: rest =>
      draw_lines (put (Text (10, desc_start + i * 20) line) thumb) rest
  end.

(** The font is loaded with a fallback to the default font: this never
    raises and moves nothing, and is left out. *)
Definition generate_thumbnail (page : Page UploadedFile) : result Canvas :=
  let thumb := Image_new (width, height) (245, 245, 245) in
  let thumb := put (Text (10, 10) ("Subject: " ++ title page)) thumb in
  thumb <- paste_images thumb (enumerate 0 (firstn 4 (images page))) ;;
  let lines := splitlines (description page) in
  let thumb := draw_lines thumb (enumerate 0 (firstn 6 lines)) in
  Ok thumb.

(** *** The canvas as a value

    The same calls without the canvas object:
    [generate_thumbnail_drawn] below shows that
    [generate_thumbnail] makes exactly these. *)

(** The call one turn of the image loop makes. *)
Definition paste_op (e : Z * UploadedFile) : result canvas_op :=
  let '(i, uploaded_img) := e in
  img <- Image_open uploaded_img ;;
  img <- thumbnail (convert_RGB img) (img_w, img_h) ;;
  Ok (Paste img (start_x + cell_col i * (img_w + gap),
                 start_y + cell_row i * (img_h + gap))).

(** The call one turn of the description loop makes. *)
Definition line_op (e : Z * string) : canvas_op :=
  let '(i, line) := e in Text (10, desc_start + i * 20) line.

End WithDecoder.

(** The images pasted by a sequence of calls, with their positions,
    in order. *)
Definition pasted_ops (ops : list canvas_op) : list (Image * (Z * Z)) :=
  flat_map (fun op => match op with
                      | Paste img xy => [(img, xy)]
                      | Text _ _ => []
                      end) ops.

(** The images pasted on a canvas. *)
Definition pasted (thumb : Canvas) : list (Image * (Z * Z)) :=
  pasted_ops (drawn thumb).

End Thumbnail.

(** ** [generate_pdf] *)

Module Pdf.

(** The drawing calls made on the FPDF object. *)
Inductive pdf_op : Type :=
| SetFont (family style : string) (sz : Z)
| SetFillColor (r g b : Z)
| Cell (w h : Z) (txt : string) (ln : Z) (align : string) (fill : bool)
| Rect (x y w h : Z) (style : string)
| Img (x y w h : Q)
| SetXY (x y : Z)
| SetY (y : Z).

(** The document under construction: the pages already closed, and
    the calls made on the page being drawn ([None] before the first
    [add_page]). *)
Record FPDF : Type := mkFPDF {
  closed : list (list pdf_op);
  current : option (list pdf_op)
}.

Definition FPDF_new : FPDF := {| closed := []; current := None |}.

Definition add_page (pdf : FPDF) : result FPDF :=
  Ok {| closed := closed pdf ++ match current pdf with
                                | Some ops => [ops]
                                | None => []
                                end;
        current := Some [] |}.

Definition emit (op : pdf_op) (pdf : FPDF) : result FPDF :=
  match current pdf with
  | Some ops => Ok {| closed := closed pdf; current := Some (ops ++ [op]) |}
  | None => Raise RuntimeError
  end.

Definition set_font pdf family style sz := emit (SetFont family style sz) pdf.
Definition set_fill_color pdf r g b := emit (SetFillColor r g b) pdf.
Definition cell pdf w h txt ln align fill := emit (Cell w h txt ln align fill) pdf.
Definition rect pdf x y w h style := emit (Rect x y w h style) pdf.
Definition image pdf x y w h := emit (Img x y w h) pdf.
Definition set_xy pdf x y := emit (SetXY x y) pdf.
Definition set_y pdf y := emit (SetY y) pdf.

(** [pdf.output(dest='S')]: the pages of the document, in order. *)
Definition output (pdf : FPDF) : list (list pdf_op) :=
  closed pdf ++ match current pdf with
                | Some ops => [ops]
                | None => []
                end.

Definition collage_width : Z := 127.
Definition collage_height : Z := 90.
Definition full_width : Z := 190.
Definition x_offset : Z := (210 - collage_width) / 2.
Definition y_offset : Z := 25.
Definition gap : Z := 5.

Definition rows (num_images : Z) : Z := if 2 <? num_images then 2 else 1.
Definition cols (num_images : Z) : Z := if 1 <? num_images then 2 else 1.

(** The size of a cell of the grid (lines 140-141). *)
Definition img_w (cols : Z) : result Q :=
  truediv (collage_width - gap * (cols - 1))%Z cols.
Definition img_h (rows : Z) : result Q :=
  truediv (collage_height - gap * (rows - 1))%Z rows.

(** Where one image goes: its cell's corner and the drawn rectangle. *)
Record Placement : Type := mkPlacement {
  x : Q; y : Q;
  draw_x : Q; draw_y : Q;
  draw_w : Q; draw_h : Q
}.

(** Lines 156-161: the drawn size of an image of aspect [img_aspect]
    in a cell of [img_w] by [img_h]. *)
Definition fit (img_w img_h img_aspect box_aspect : Q) : result (Q * Q) :=
  if Qgt_bool img_aspect box_aspect then
    draw_h <- truediv img_w img_aspect ;;
    Ok (img_w, draw_h)
  else
    Ok ((img_h * img_aspect)%Q, img_h).

(** Lines 147-164: the placement of the image of index [i] and pixel
    size [img_size] in a grid of [cols] columns of cells of [img_w]
    by [img_h]. *)
Definition place (cols : Z) (img_w img_h : Q) (i : Z) (img_size : Z * Z)
  : result Placement :=
  let col := i mod cols in
  let row := i / cols in
  let x := (x_offset + (img_w + gap) * col)%Q in
  let y := (y_offset + (img_h + gap) * row)%Q in
  let '(img_width_px, img_height_px) := img_size in
  img_aspect <- truediv img_width_px img_height_px ;;
  box_aspect <- truediv img_w img_h ;;
  '(draw_w, draw_h) <- fit img_w img_h img_aspect box_aspect ;;
  let draw_x := (x + (img_w - draw_w) / 2)%Q in
  let draw_y := (y + (img_h - draw_h) / 2)%Q in
  Ok {| x := x; y := y; draw_x := draw_x; draw_y := draw_y;
        draw_w := draw_w; draw_h := draw_h |}.

(** [while len(lines) < 10: lines.append("")].  Every turn of the
    loop makes the list one longer, so 10 turns are enough for the
    guard to fail. *)
Fixpoint pad_loop (turns : nat) (lines : list string) : list string :=
  match turns with
  | O => lines
  | S turns' =>
      if (List.length lines <? 10)%nat then pad_loop turns' (lines ++ [EmptyString])
      else lines
  end.

Definition pad (lines : list string) : list string := pad_loop 10 lines.

Section WithDecoder.

Variable UploadedFile : Type.
Variable Image_open : UploadedFile -> result Image.

(** The body of the image loop (lines 143-170).  The temporary file
    the image is saved to, and its removal, are left out: only the
    failure of the save is kept. *)
Fixpoint place_images (cols : Z) (img_w img_h : Q) (pdf : FPDF)
    (l : list (Z * UploadedFile)) : result FPDF :=
  match l with
  | [] => Ok pdf
  | (i, img_file) :: rest =>
      img <- Image_open img_file ;;
      _ <- save_JPEG img ;;
      p <- place cols img_w img_h i (size img) ;;
      pdf <- image pdf (draw_x p) (draw_y p) (draw_w p) (draw_h p) ;;
      place_images cols img_w img_h pdf rest
  end.

(** The body of [for line in lines]. *)
Fixpoint draw_rows (pdf : FPDF) (lines : list string) : result FPDF :=
  match lines with
  | [] => Ok pdf
  | line :: rest =>
      pdf <- cell pdf 190 10 line 1 EmptyString true ;;
      draw_rows pdf rest
  end.

Variables project_name username report_date : string.

(** One turn of the page loop (lines 123-195).  [report_date] is the
    text [str] gives of the date. *)
Definition render_page (pdf : FPDF) (page_num : Z) (page : Page UploadedFile)
  : result FPDF :=
  pdf <- add_page pdf ;;
  pdf <- set_font pdf "Arial" "B" 16 ;;
  pdf <- cell pdf 0 10 project_name 1 "C" false ;;
  pdf <- set_fill_color pdf 220 220 220 ;;
  pdf <- rect pdf 10 (y_offset - 5) full_width (collage_height + 10) "F" ;;
  let num_images := Z.of_nat (List.length (images page)) in
  let rows := rows num_images in
  let cols := cols num_images in
  img_w <- img_w cols ;;
  img_h <- img_h rows ;;
  pdf <- place_images cols img_w img_h pdf (enumerate 0 (images page)) ;;
  let desc_y := y_offset + collage_height + 10 in
  pdf <- set_xy pdf 10 desc_y ;;
  pdf <- set_fill_color pdf 255 255 255 ;;
  pdf <- set_font pdf "Arial" "" 12 ;;
  pdf <- cell pdf 190 10 (" Subject: " ++ title page) 1 "" true ;;
  pdf <- set_fill_color pdf 240 240 240 ;;
  pdf <- cell pdf 190 10 "Description:" 1 "" true ;;
  pdf <- set_font pdf "Arial" "" 12 ;;
  let lines := splitlines (description page) in
  let lines := pad lines in
  pdf <- draw_rows pdf lines ;;
  pdf <- set_y pdf (-30) ;;
  pdf <- set_font pdf "Arial" "I" 10 ;;
  pdf <- cell pdf 0 10 ("Created by: " ++ username) 1 "" false ;;
  pdf <- cell pdf 0 10 ("Date: " ++ report_date) 1 "" false ;;
  pdf <- set_y pdf (-10) ;;
  pdf <- set_font pdf "Arial" "" 10 ;;
  cell pdf 0 10 ("Page " ++ str page_num) 0 "C" false.

(** The page loop. *)
Fixpoint render_pages (pdf : FPDF) (l : list (Z * Page UploadedFile))
  : result FPDF :=
  match l with
  | [] => Ok pdf
  | (page_num, page) :: rest =>
      pdf <- render_page pdf page_num page ;;
      render_pages pdf rest
  end.

(** The document returned is given by its pages, each the sequence of
    its drawing calls, in place of the bytes of the PDF.  Automatic
    page breaks are off: a call never opens a page. *)
Definition generate_pdf (pages : list (Page UploadedFile))
  : result (list (list pdf_op)) :=
  let pdf := FPDF_new in
  pdf <- render_pages pdf (enumerate 1 pages) ;;
  Ok (output pdf).

(** *** The pages as values

    The same drawing calls, page by page, without the FPDF object:
    [generate_pdf_pages] below shows that [generate_pdf] returns
    exactly these. *)

(** The call one turn of the image loop makes. *)
Definition image_op (cols : Z) (img_w img_h : Q) (e : Z * UploadedFile)
  : result pdf_op :=
  let '(i, img_file) := e in
  img <- Image_open img_file ;;
  _ <- save_JPEG img ;;
  p <- place cols img_w img_h i (size img) ;;
  Ok (Img (draw_x p) (draw_y p) (draw_w p) (draw_h p)).

Definition header_ops : list pdf_op :=
  [ SetFont "Arial" "B" 16;
    Cell 0 10 project_name 1 "C" false;
    SetFillColor 220 220 220;
    Rect 10 (y_offset - 5) full_width (collage_height + 10) "F" ].

Definition subject_ops (page : Page UploadedFile) : list pdf_op :=
  [ SetXY 10 (y_offset + collage_height + 10);
    SetFillColor 255 255 255;
    SetFont "Arial" "" 12;
    Cell 190 10 (" Subject: " ++ title page) 1 "" true;
    SetFillColor 240 240 240;
    Cell 190 10 "Description:" 1 "" true;
    SetFont "Arial" "" 12 ].

Definition row_op (line : string) : pdf_op :=
  Cell 190 10 line 1 EmptyString true.

Definition footer_ops (page_num : Z) : list pdf_op :=
  [ SetY (-30);
    SetFont "Arial" "I" 10;
    Cell 0 10 ("Created by: " ++ username) 1 "" false;
    Cell 0 10 ("Date: " ++ report_date) 1 "" false;
    SetY (-10);
    SetFont "Arial" "" 10;
    Cell 0 10 ("Page " ++ str page_num) 0 "C" false ].

Definition page_images (page : Page UploadedFile) : result (list pdf_op) :=
  let num_images := Z.of_nat (List.length (images page)) in
  img_w <- img_w (cols num_images) ;;
  img_h <- img_h (rows num_images) ;;
  mapM (image_op (cols num_images) img_w img_h) (enumerate 0 (images page)).

Definition page_ops (e : Z * Page UploadedFile) : result (list pdf_op) :=
  let '(page_num, page) := e in
  imgs <- page_images page ;;
  Ok (header_ops ++ imgs ++ subject_ops page
        ++ map row_op (pad (splitlines (description page)))
        ++ footer_ops page_num).

End WithDecoder.

(** *** Reading a rendered page *)

(** The texts of the cells of a page, in drawing order: the project
    name, the subject bar, the "Description:" label, the description
    rows, the author, the date and the page number. *)
Definition cell_texts (ops : list pdf_op) : list string :=
  flat_map (fun op => match op with
                      | Cell _ _ txt _ _ _ => [txt]
                      | _ => []
                      end) ops.

(** The description rows: the cells between the three of the head
    and the three of the foot. *)
Definition description_rows (ops : list pdf_op) : list string :=
  let texts := skipn 3 (cell_texts ops) in
  firstn (List.length texts - 3) texts.

(** The text of the page-number line: the last cell of the page. *)
Definition page_number_text (ops : list pdf_op) : option string :=
  last (map Some (cell_texts ops)) None.

(** The text of the subject bar: the second cell of the page. *)
Definition subject_text (ops : list pdf_op) : option string :=
  nth_error (cell_texts ops) 1.

(** The rectangles [(x, y, w, h)] of the images of a page, in drawing
    order. *)
Definition drawn_images (ops : list pdf_op) : list (Q * Q * Q * Q) :=
  flat_map (fun op => match op with
                      | Img x y w h => [(x, y, w, h)]
                      | _ => []
                      end) ops.

End Pdf.

(** ** Lines 140-164 in double precision

    The arithmetic of the image loop once more, on the binary64
    floats Python computes with: [/] rounds the quotient to the
    nearest double, and so does every operation with a [float]
    operand.  The integers of the layout and the pixel counts of an
    image are far below [2^53], so their conversion to a double is
    exact. *)

Module Doubles.

Import PrimFloat.PrimFloatNotations.

Definition float : Set := PrimFloat.float.

(** [float(n)], for [0 <= n < 2^53]. *)
Definition of_int (n : Z) : float := PrimFloat.of_uint63 (Uint63.of_Z n).

Definition truediv (a b : float) : result float :=
  if (b =? PrimFloat.zero)%float then Raise ZeroDivisionError
  else Ok (a / b)%float.

Definition img_w (cols : Z) : result float :=
  truediv (of_int (Pdf.collage_width - Pdf.gap * (cols - 1))) (of_int cols).
Definition img_h (rows : Z) : result float :=
  truediv (of_int (Pdf.collage_height - Pdf.gap * (rows - 1))) (of_int rows).

Record Placement : Type := mkPlacement {
  x : float; y : float;
  draw_x : float; draw_y : float;
  draw_w : float; draw_h : float
}.

(** Lines 156-161. *)
Definition fit (img_w img_h img_aspect box_aspect : float)
  : result (float * float) :=
  if (box_aspect <? img_aspect)%float then
    draw_h <- truediv img_w img_aspect ;;
    Ok (img_w, draw_h)
  else
    Ok ((img_h * img_aspect)%float, img_h).

(** Lines 147-164. *)
Definition place (cols : Z) (img_w img_h : float) (i : Z) (img_size : Z * Z)
  : result Placement :=
  let col := i mod cols in
  let row := i / cols in
  let x := (of_int Pdf.x_offset + (img_w + of_int Pdf.gap) * of_int col)%float in
  let y := (of_int Pdf.y_offset + (img_h + of_int Pdf.gap) * of_int row)%float in
  let '(img_width_px, img_height_px) := img_size in
  img_aspect <- truediv (of_int img_width_px) (of_int img_height_px) ;;
  box_aspect <- truediv img_w img_h ;;
  '(draw_w, draw_h) <- fit img_w img_h img_aspect box_aspect ;;
  let draw_x := (x + (img_w - draw_w) / of_int 2)%float in
  let draw_y := (y + (img_h - draw_h) / of_int 2)%float in
  Ok {| x := x; y := y; draw_x := draw_x; draw_y := draw_y;
        draw_w := draw_w; draw_h := draw_h |}.

End Doubles.

(** ** Uploaded files for the examples

    A file is given by what [Image.open] makes of it: the decoded
    image, or nothing when its bytes are no image. *)

Definition File : Type := option Image.

Definition open_file (f : File) : result Image :=
  match f with
  | Some img => Ok img
  | None => Raise UnidentifiedImageError
  end.

(** A JPEG photograph of [w] by [h] pixels. *)
Definition photo (w h : Z) : File := Some {| size := (w, h); mode := "RGB" |}.

(** A file that is no image. *)
Definition garbage : File := None.

(** The line feed, and a text of several lines. *)
Definition LF : string := String (ascii_of_nat 10) EmptyString.

Definition text_of_lines (lines : list string) : string :=
  String.concat LF lines.

(** A report of two pages. *)
Definition two_pages : list (Page File) :=
  [ {| images := [photo 400 300];
       title := "Site entrance";
       description := "Gate seen from the road." |};
    {| images := [photo 300 400; photo 640 480];
       title := "North wall";
       description := text_of_lines ["Two views."; "Taken at noon."]%string |} ].

(** Three photographs and a description of 12 lines. *)
Definition crack_page : Page File :=
  {| images := [photo 640 480; photo 480 640; photo 800 600];
     title := "Foundation Crack";
     description :=
       text_of_lines ["line 1"; "line 2"; "line 3"; "line 4"; "line 5"; "line 6";
                      "line 7"; "line 8"; "line 9"; "line 10"; "line 11";
                      "line 12"]%string |}.

(** Five files, the fifth of which is no image. *)
Definition fifth_garbage_page : Page File :=
  {| images := [photo 400 300; photo 400 300; photo 400 300; photo 400 300;
                garbage];
     title := "Roof";
     description := "Tiles." |}.

(** Six photographs. *)
Definition six_photos_page : Page File :=
  {| images := [photo 400 300; photo 300 400; photo 640 480; photo 480 640;
                photo 800 600; photo 600 800];
     title := "Stairs";
     description := "All flights." |}.

(** ** Rectangles *)

(** A rectangle [(x, y, w, h)] lies inside another. *)
Definition rect_inside (r outer : Q * Q * Q * Q) : Prop :=
  let '(x, y, w, h) := r in
  let '(ox, oy, ow, oh) := outer in
  (ox <= x /\ x + w <= ox + ow /\ oy <= y /\ y + h <= oy + oh)%Q.

(** Two rectangles have no inner point in common: one is left of,
    right of, above or below the other. *)
Definition rect_apart (r1 r2 : Q * Q * Q * Q) : Prop :=
  let '(x1, y1, w1, h1) := r1 in
  let '(x2, y2, w2, h2) := r2 in
  (x1 + w1 <= x2 \/ x2 + w2 <= x1 \/ y1 + h1 <= y2 \/ y2 + h2 <= y1)%Q.

(** The rectangle a pasted image covers on the preview canvas. *)
Definition pasted_rect (e : Image * (Z * Z)) : Q * Q * Q * Q :=
  let '(img, (x, y)) := e in
  (inject_Z x, inject_Z y, inject_Z (fst (size img)), inject_Z (snd (size img))).

(** The texts drawn on the preview canvas, with their positions, in
    order. *)
Definition canvas_texts (thumb : Thumbnail.Canvas) : list ((Z * Z) * string) :=
  flat_map (fun op => match op with
                      | Thumbnail.Text xy s => [(xy, s)]
                      | Thumbnail.Paste _ _ => []
                      end) (Thumbnail.drawn thumb).

(** ** Where the cells of a printed page are

    The vertical position of the FPDF cursor along the drawing calls
    of a page: [add_page] puts it at the top margin, [set_y] and
    [set_xy] move it (a negative value counts from the bottom of the
    page), a cell with [ln] set moves it down by the height of the
    cell; rectangles and images placed at given coordinates leave it
    alone.  Automatic page breaks are off. *)

Section Cursor.

(** The height of the page and its top margin, in mm. *)
Variables page_h t_margin : Q.

Definition set_cursor_y (y : Z) : Q :=
  if 0 <=? y then inject_Z y else (page_h + inject_Z y)%Q.

(** The cells of a page with the position of their top edge:
    [(y, h, txt)]. *)
Fixpoint cells_from (cy : Q) (ops : list Pdf.pdf_op) : list (Q * Z * string) :=
  match ops with
  | [] => []
  | Pdf.Cell _ h txt ln _ _ :: rest =>
      (cy, h, txt) :: cells_from (if 0 <? ln then (cy + inject_Z h)%Q else cy) rest
  | Pdf.SetY y :: rest => cells_from (set_cursor_y y) rest
  | Pdf.SetXY _ y :: rest => cells_from (set_cursor_y y) rest
  | _ :: rest => cells_from cy rest
  end.

Definition page_cells (ops : list Pdf.pdf_op) : list (Q * Z * string) :=
  cells_from t_margin ops.

End Cursor.

(** Rows of height 10 stacked from [cy] down, one per line. *)
Fixpoint row_cells (cy : Q) (lines : list string) : list (Q * Z * string) :=
  match lines with
  | [] => []
  | line :: rest => (cy, 10, line) :: row_cells (cy + inject_Z 10)%Q rest
  end.

(** The same rows, each with its distance from [y0]. *)
Definition rows_at (y0 : Q) (lines : list string) : list (Q * Z * string) :=
  map (fun '(j, line) => ((y0 + 10 * inject_Z j)%Q, 10, line)) (enumerate 0 lines).

(** Two lists of cells are the same: equal positions, heights and
    texts, in the same order. *)
Definition same_cells (l1 l2 : list (Q * Z * string)) : Prop :=
  Forall2 (fun c1 c2 =>
             let '(y1, h1, txt1) := c1 in
             let '(y2, h2, txt2) := c2 in
             (y1 == y2)%Q /\ h1 = h2 /\ txt1 = txt2) l1 l2.

(** The height of an A4 page and the default margin of FPDF, in mm:
    841.89 and 28.35 points, at 72 / 25.4 points per mm. *)
Definition a4_height : Q := (84189 # 100) / (72 / (254 # 10)).
Definition default_margin : Q := (2835 # 100) / (72 / (254 # 10)).

(** What an image must be for the image loop of [generate_pdf] to go
    through: it opens, its mode is one the JPEG encoder writes, and
    its height is not 0. *)
Definition placeable {UploadedFile : Type}
    (Image_open : UploadedFile -> result Image) (f : UploadedFile) : Prop :=
  exists img, Image_open f = Ok img /\ save_JPEG img = Ok tt /\ snd (size img) <> 0.

(** ** The page list and its buttons

    The script runs again on each click; a run sees one button
    pressed, with the values of the input fields, and the session as
    the run before left it.  A button is a function from the session
    to the session the run leaves.  The buttons of a page are in the
    preview loop: the run reaches them after the previews of that page
    and of the pages before it, and a preview that raises ends the
    run with the session as it is at that point. *)

Module App.

(** [c.isspace()] for a code point below 256. *)
Definition isspace (c : ascii) : bool :=
  let n := nat_of_ascii c in
  ((9 <=? n) && (n <=? 13) || (28 <=? n) && (n <=? 32)
   || (n =? 133) || (n =? 160))%nat.

(** [s.lstrip()], [s.rstrip()] and [s.strip()] *)
Fixpoint lstrip (s : string) : string :=
  match s with
  | EmptyString => EmptyString
  | String c s' => if isspace c then lstrip s' else s
  end.

Fixpoint rstrip (s : string) : string :=
  match s with
  | EmptyString => EmptyString
  | String c s' =>
      match rstrip s' with
      | EmptyString => if isspace c then EmptyString else String c EmptyString
      | r => String c r
      end
  end.

Definition strip (s : string) : string := rstrip (lstrip s).

(** The truth value of a string: it is not empty. *)
Definition truthy (s : string) : bool :=
  match s with
  | EmptyString => false
  | String _ _ => true
  end.

(** [s.replace(old, new)] for single characters. *)
Fixpoint replace (old new : ascii) (s : string) : string :=
  match s with
  | EmptyString => EmptyString
  | String c s' =>
      String (if Ascii.eqb c old then new else c) (replace old new s')
  end.

(** [l.pop(i)]: the list without its element of index [i]. *)
Definition pop {A : Type} (l : list A) (i : nat) : list A :=
  firstn i l ++ skipn (S i) l.

(** [l[i] = f(l[i])] *)
Fixpoint update {A : Type} (l : list A) (i : nat) (f : A -> A) : list A :=
  match l, i with
  | [], _ => []
  | a :: l', O => f a :: l'
  | a :: l', S i' => a :: update l' i' f
  end.

(** What a click reports. *)
Inductive notice : Type :=
| warning (s : string)
| success (s : string).

Section WithDecoder.

Variable UploadedFile : Type.
Variable Image_open : UploadedFile -> result Image.

(** [st.session_state]: the pages, and the index of the page being
    edited, if any. *)
Record Session : Type := mkSession {
  pages : list (Page UploadedFile);
  edit_index : option nat
}.

(** The state of a new session (lines 11-15). *)
Definition new_session : Session := {| pages := []; edit_index := None |}.

(** "Add Page" (lines 30-42). *)
Definition add_button (s : Session) (new_images : list UploadedFile)
    (new_title new_description : string) : Session * notice :=
  let n := Z.of_nat (List.length new_images) in
  if negb ((1 <=? n) && (n <=? 4)) then
    (s, warning "Please upload between 1 and 4 images.")
  else if negb (truthy (strip new_description)) then
    (s, warning "Please enter a description.")
  else
    ({| pages := pages s ++ [ {| images := new_images;
                                 title := new_title;
                                 description := new_description |} ];
        edit_index := None |},
     success "Page added!").

(** The previews of the first [n] pages (lines 87-91). *)
Definition previews (s : Session) (n : nat) : result (list Thumbnail.Canvas) :=
  mapM (Thumbnail.generate_thumbnail UploadedFile Image_open)
    (firstn n (pages s)).

(** "Edit" of the page of index [i] (lines 93-94); the button exists
    for the pages of the list only. *)
Definition edit_button (s : Session) (i : nat) : Session :=
  match previews s (S i), nth_error (pages s) i with
  | Ok _, Some _ => {| pages := pages s; edit_index := Some i |}
  | _, _ => s
  end.

(** "Delete" of the page of index [i] (lines 95-96 and 113-115): the
    page is removed after the loop, when every preview is made. *)
Definition delete_button (s : Session) (i : nat) : Session * option notice :=
  match previews s (List.length (pages s)), nth_error (pages s) i with
  | Ok _, Some _ =>
      ({| pages := pop (pages s) i; edit_index := edit_index s |},
       Some (success "Page deleted."))
  | _, _ => (s, None)
  end.

(** "Save Changes" of the page of index [i] (lines 103-109); the
    button exists only while that page is being edited. *)
Definition save_button (s : Session) (i : nat) (edit_title edit_description : string)
    (edit_images : list UploadedFile) : Session * option notice :=
  match previews s (S i), edit_index s, nth_error (pages s) i with
  | Ok _, Some j, Some _ =>
      if Nat.eqb j i then
        ({| pages :=
              update (pages s) i
                (fun page =>
                   {| images := match edit_images with
                                | [] => images page
                                | _ :: _ => edit_images
                                end;
                      title := edit_title;
                      description := edit_description |});
            edit_index := None |},
         Some (success "Page updated."))
      else (s, None)
  | _, _, _ => (s, None)
  end.

(** "Cancel" of the page of index [i] (lines 110-111). *)
Definition cancel_button (s : Session) (i : nat) : Session :=
  match previews s (S i), edit_index s with
  | Ok _, Some j =>
      if Nat.eqb j i then {| pages := pages s; edit_index := None |} else s
  | _, _ => s
  end.

(** A click on one of the buttons of the page list. *)
Inductive click : Type :=
| Add (new_images : list UploadedFile) (new_title new_description : string)
| Edit (i : nat)
| Delete (i : nat)
| Save (i : nat) (edit_title edit_description : string)
    (edit_images : list UploadedFile)
| Cancel (i : nat).

Definition on_click (s : Session) (c : click) : Session :=
  match c with
  | Add new_images new_title new_description =>
      fst (add_button s new_images new_title new_description)
  | Edit i => edit_button s i
  | Delete i => fst (delete_button s i)
  | Save i edit_title edit_description edit_images =>
      fst (save_button s i edit_title edit_description edit_images)
  | Cancel i => cancel_button s i
  end.

(** The session after a sequence of clicks. *)
Definition after_clicks (s : Session) (cs : list click) : Session :=
  fold_left on_click cs s.

(** The name of the file offered for download (line 211). *)
Definition file_name (project_name : string) : string :=
  replace " " "_" project_name ++ "_Photo_Report.pdf".

(** What "Generate PDF" leads to (lines 200-213), after the preview
    loop: no button without pages, a warning, or the report with the
    name of its file. *)
Inductive generated : Type :=
| NoButton
| Warned (n : notice)
| Download (data : list (list Pdf.pdf_op)) (name : string).

Definition generate_button (s : Session) (project_name username report_date : string)
  : result generated :=
  _ <- previews s (List.length (pages s)) ;;
  match pages s with
  | [] => Ok NoButton
  | _ :: _ =>
      if negb (truthy (strip project_name)) || negb (truthy (strip username)) then
        Ok (Warned (warning "Please fill in all project information."))
      else
        pdf_bytes <- Pdf.generate_pdf UploadedFile Image_open
                       project_name username report_date (pages s) ;;
        Ok (Download pdf_bytes (file_name project_name))
  end.

End WithDecoder.

End App.

(** A page as "Add Page" accepts it: 1 to 4 images, and a description
    that is not blank. *)
Definition well_formed {UploadedFile : Type} (page : Page UploadedFile) : Prop :=
  (1 <= List.length (images page) <= 4)%nat /\
  App.truthy (App.strip (description page)) = true.

(** A click whose input "Add Page" would accept: this restricts "Save
    Changes" only, the one button that stores its input unchecked. *)
Definition checked_click {UploadedFile : Type} (c : App.click UploadedFile) : Prop :=
  match c with
  | App.Save _ _ _ edit_description edit_images =>
      (List.length edit_images <= 4)%nat /\
      App.truthy (App.strip edit_description) = true
  | _ => True
  end.

(** One photograph and a description of 13 lines. *)
Definition thirteen_lines_page : Page File :=
  {| images := [photo 400 300];
     title := "Site log";
     description :=
       text_of_lines ["day 1"; "day 2"; "day 3"; "day 4"; "day 5"; "day 6";
                      "day 7"; "day 8"; "day 9"; "day 10"; "day 11"; "day 12";
                      "day 13"]%string |}.

(** A photograph, a file that is no image, and another photograph. *)
Definition second_garbage_page : Page File :=
  {| images := [photo 400 300; garbage; photo 300 400];
     title := "Roof";
     description := "Tiles." |}.

(** The session of the report of two pages, its first page being
    edited. *)
Definition editing_session : App.Session File :=
  {| App.pages := two_pages; App.edit_index := Some 0%nat |}.

(** Clicks on a new session: a page is added, one without files is
    refused, the page is edited and saved with two new files, a second
    page is added and the first deleted. *)
Definition some_clicks : list (App.click File) :=
  [ App.Add File [photo 400 300] "Gate" "Seen from the road.";
    App.Add File [] "Wall" "No files.";
    App.Edit File 0;
    App.Save File 0 "Gate" "Seen from the yard." [photo 300 400; photo 640 480];
    App.Add File [photo 800 600] "Wall" "North side.";
    App.Delete File 0 ].

(** * Properties *)

(** ** The exception monad *)

Lemma bind_Ok {A B : Type} (m : result A) (k : A -> result B) (b : B) :
  bind m k = Ok b -> exists a, m = Ok a /\ k a = Ok b.
Proof.
  destruct m as [a|e]; simpl; intros H; [exists a; auto | discriminate].
Qed.

Lemma bind_Raise {A B : Type} (m : result A) (k : A -> result B) (e : exn) :
  m = Raise e -> bind m k = Raise e.
Proof. intros ->; reflexivity. Qed.

Ltac inv_bind H :=
  let a := fresh "a" in
  let Ha := fresh "Ha" in
  apply bind_Ok in H; destruct H as (a & Ha & H).

Lemma truediv_Ok (a b q : Q) :
  truediv a b = Ok q -> ~ (b == 0)%Q /\ q = (a / b)%Q.
Proof.
  unfold truediv. destruct (Qeq_bool b 0) eqn:E; [discriminate|].
  intros [= <-]. split; [|reflexivity].
  intros H. apply Qeq_bool_iff in H. congruence.
Qed.

Lemma truediv_nonzero (a b : Q) :
  ~ (b == 0)%Q -> truediv a b = Ok (a / b)%Q.
Proof.
  intros H. unfold truediv. destruct (Qeq_bool b 0) eqn:E; [|reflexivity].
  apply Qeq_bool_iff in E. contradiction.
Qed.

Lemma Qgt_bool_iff (a b : Q) : Qgt_bool a b = true <-> (b < a)%Q.
Proof.
  unfold Qgt_bool. rewrite negb_true_iff. split.
  - intros H. apply Qnot_le_lt. intros L. apply Qle_bool_iff in L. congruence.
  - intros H. destruct (Qle_bool a b) eqn:E; [|reflexivity].
    apply Qle_bool_iff in E. apply Qlt_not_le in H. contradiction.
Qed.

Lemma Qgt_bool_false (a b : Q) : Qgt_bool a b = false <-> (a <= b)%Q.
Proof.
  unfold Qgt_bool. rewrite negb_false_iff. apply Qle_bool_iff.
Qed.

(** ** Traversals *)

Lemma enumerate_length {A : Type} (l : list A) (s : Z) :
  List.length (enumerate s l) = List.length l.
Proof. revert s; induction l; simpl; intros; [|rewrite IHl]; reflexivity. Qed.

Lemma enumerate_nth_error {A : Type} (l : list A) (s : Z) (k : nat) :
  nth_error (enumerate s l) k =
  option_map (fun a => (s + Z.of_nat k, a)) (nth_error l k).
Proof.
  revert s k; induction l as [|a l IH]; intros s [|k]; simpl; try reflexivity.
  - now rewrite Z.add_0_r.
  - rewrite IH. destruct (nth_error l k); simpl; [|reflexivity].
    do 2 f_equal. lia.
Qed.

Lemma mapM_Ok_length {A B : Type} (f : A -> result B) (l : list A) (bs : list B) :
  mapM f l = Ok bs -> List.length bs = List.length l.
Proof.
  revert bs; induction l as [|a l IH]; simpl; intros bs H.
  - now inversion H.
  - inv_bind H. inv_bind H. inversion H; subst. simpl. f_equal. auto.
Qed.

Lemma mapM_Ok_nth_error {A B : Type} (f : A -> result B) (l : list A)
    (bs : list B) (k : nat) (a : A) :
  mapM f l = Ok bs -> nth_error l k = Some a ->
  exists b, nth_error bs k = Some b /\ f a = Ok b.
Proof.
  revert bs k; induction l as [|a' l IH]; simpl; intros bs k H Hk.
  - destruct k; discriminate.
  - inv_bind H. inv_bind H. inversion H; subst.
    destruct k as [|k]; simpl in *.
    + inversion Hk; subst. eauto.
    + eauto.
Qed.

Lemma mapM_Raise_In {A B : Type} (f : A -> result B) (l : list A) (a : A) (e : exn) :
  In a l -> f a = Raise e -> exists e', mapM f l = Raise e'.
Proof.
  induction l as [|a' l IH]; simpl; [tauto|].
  intros [->|Hin] Hf.
  - rewrite Hf. simpl. eauto.
  - destruct (f a') as [b|e1]; simpl; [|eauto].
    destruct (IH Hin Hf) as [e' ->]. simpl. eauto.
Qed.

Lemma mapM_all_Ok {A B : Type} (f : A -> result B) (l : list A) :
  (forall a, In a l -> exists b, f a = Ok b) -> exists bs, mapM f l = Ok bs.
Proof.
  induction l as [|a l IH]; simpl; intros H; [eauto|].
  destruct (H a (or_introl eq_refl)) as [b ->].
  destruct IH as [bs ->]; [auto|]. simpl. eauto.
Qed.

Lemma In_enumerate {A : Type} (l : list A) (a : A) :
  In a l -> forall s : Z, exists k : Z, In (k, a) (enumerate s l).
Proof.
  induction l as [|a' l IH]; cbn [In enumerate]; [tauto|].
  intros [->|Hin] s.
  - exists s. now left.
  - destruct (IH Hin (s + 1)) as [k Hk]. exists k. now right.
Qed.

Lemma In_enumerate_snd {A : Type} (l : list A) (s k : Z) (a : A) :
  In (k, a) (enumerate s l) -> In a l.
Proof.
  revert s; induction l as [|a' l IH]; cbn [In enumerate]; intros s; [tauto|].
  intros [[= _ ->]|Hin]; [now left | right; eauto].
Qed.

(** ** [generate_pdf] returns the pages of [page_ops] *)

Section PdfPages.

Import Pdf.

Variable UploadedFile : Type.
Variable Image_open : UploadedFile -> result Image.
Variables project_name username report_date : string.

Lemma place_images_eq (cols : Z) (img_w img_h : Q) (l : list (Z * UploadedFile)) :
  forall (done : list (list pdf_op)) (ops : list pdf_op),
    place_images _ Image_open cols img_w img_h
      {| closed := done; current := Some ops |} l =
    (imgs <- mapM (image_op _ Image_open cols img_w img_h) l ;;
     Ok {| closed := done; current := Some (ops ++ imgs) |}).
Proof.
  induction l as [|[i img_file] l IH]; intros done ops; simpl.
  - now rewrite app_nil_r.
  - destruct (Image_open img_file) as [img|e]; simpl; [|reflexivity].
    destruct (save_JPEG img) as [[]|e]; simpl; [|reflexivity].
    destruct (place cols img_w img_h i (size img)) as [p|e]; simpl; [|reflexivity].
    rewrite IH.
    destruct (mapM _ l) as [imgs|e]; simpl; [|reflexivity].
    now rewrite <- app_assoc.
Qed.

Lemma draw_rows_eq (lines : list string) :
  forall (done : list (list pdf_op)) (ops : list pdf_op),
    draw_rows {| closed := done; current := Some ops |} lines =
    Ok {| closed := done; current := Some (ops ++ map row_op lines) |}.
Proof.
  induction lines as [|line lines IH]; intros done ops; simpl.
  - now rewrite app_nil_r.
  - rewrite IH. now rewrite <- app_assoc.
Qed.

Lemma render_page_eq (pdf : FPDF) (page_num : Z) (page : Page UploadedFile) :
  render_page _ Image_open project_name username report_date pdf page_num page =
  (ops <- page_ops _ Image_open project_name username report_date (page_num, page) ;;
   Ok {| closed := output pdf; current := Some ops |}).
Proof.
  unfold render_page, page_ops, page_images.
  cbn [add_page set_font cell set_fill_color rect set_xy set_y emit bind
       current closed].
  destruct (img_w _) as [w|e]; cbn [bind]; [|reflexivity].
  destruct (img_h _) as [h|e]; cbn [bind]; [|reflexivity].
  rewrite place_images_eq.
  destruct (mapM _ _) as [imgs|e]; cbn [bind]; [|reflexivity].
  cbn [set_font cell set_fill_color rect set_xy set_y emit bind current closed].
  rewrite draw_rows_eq.
  cbn [set_font cell set_fill_color rect set_xy set_y emit bind current closed].
  unfold output, header_ops, subject_ops, footer_ops.
  repeat (rewrite <- app_assoc; cbn [app]).
  reflexivity.
Qed.

Lemma render_pages_eq (l : list (Z * Page UploadedFile)) :
  forall pdf : FPDF,
    (pdf' <- render_pages _ Image_open project_name username report_date pdf l ;;
     Ok (output pdf')) =
    (ps <- mapM (page_ops _ Image_open project_name username report_date) l ;;
     Ok (output pdf ++ ps)).
Proof.
  induction l as [|[page_num page] l IH]; intros pdf;
    cbn [render_pages mapM bind].
  - now rewrite app_nil_r.
  - rewrite render_page_eq.
    destruct (page_ops _ _ _ _ _ (page_num, page)) as [ops|e];
      cbn [bind]; [|reflexivity].
    rewrite IH.
    destruct (mapM _ l) as [ps|e]; cbn [bind]; [|reflexivity].
    unfold output at 1. cbn [closed current]. now rewrite <- app_assoc.
Qed.

Lemma generate_pdf_pages (pages : list (Page UploadedFile)) :
  generate_pdf _ Image_open project_name username report_date pages =
  mapM (page_ops _ Image_open project_name username report_date)
    (enumerate 1 pages).
Proof.
  unfold generate_pdf.
  rewrite render_pages_eq.
  destruct (mapM _ _); reflexivity.
Qed.

End PdfPages.

(** ** The grid and the placement of an image *)

Lemma inject_Z_nonzero (n : Z) : n <> 0 -> ~ (inject_Z n == 0)%Q.
Proof. intros H E. apply H. unfold Qeq in E. simpl in E. lia. Qed.

Lemma inject_Z_pos (n : Z) : 0 < n -> (0 < inject_Z n)%Q.
Proof. intros H. unfold Qlt; simpl. lia. Qed.

Lemma Qdiv_mult_cancel (a b : Q) : ~ (b == 0)%Q -> (a / b * b == a)%Q.
Proof. intros H. field. exact H. Qed.

Lemma Qpos_nonzero (a : Q) : (0 < a)%Q -> ~ (a == 0)%Q.
Proof. intros H E. rewrite E in H. apply (Qlt_irrefl 0). exact H. Qed.

(** C2. With 1 to 4 images the grid is 1x1, 1x2, 2x2 and 2x2. *)
Theorem grid_layout_1_to_4 (n : Z) :
  1 <= n <= 4 ->
  (Pdf.rows n, Pdf.cols n) =
  nth (Z.to_nat (n - 1)) [(1, 1); (1, 2); (2, 2); (2, 2)] (0, 0).
Proof.
  intros H.
  assert (n = 1 \/ n = 2 \/ n = 3 \/ n = 4) as [->|[->|[->| ->]]] by lia;
    reflexivity.
Qed.

Lemma grid_layout_1_to_4_witness :
  1 <= 3 <= 4 /\ (Pdf.rows 3, Pdf.cols 3) = (2, 2).
Proof. split; [lia | apply (grid_layout_1_to_4 3); lia]. Defined.

Section Fit.

Import Pdf.

Variables img_w img_h : Q.
Hypothesis img_w_pos : (0 < img_w)%Q.
Hypothesis img_h_pos : (0 < img_h)%Q.


End Fit.

Section Placement.

Import Pdf.

Lemma place_Ok (cols : Z) (img_w img_h : Q) (i w_px h_px : Z) (p : Placement) :
  place cols img_w img_h i (w_px, h_px) = Ok p ->
  exists dw dh,
    ~ (inject_Z h_px == 0)%Q /\ ~ (img_h == 0)%Q /\
    fit img_w img_h (w_px / h_px) (img_w / img_h) = Ok (dw, dh) /\
    p = {| x := x_offset + (img_w + gap) * (i mod cols)%Z;
           y := y_offset + (img_h + gap) * (i / cols)%Z;
           draw_x := x_offset + (img_w + gap) * (i mod cols)%Z + (img_w - dw) / 2;
           draw_y := y_offset + (img_h + gap) * (i / cols)%Z + (img_h - dh) / 2;
           draw_w := dw; draw_h := dh |}.
Proof.
  unfold place. intros H.
  apply bind_Ok in H. destruct H as (a & Ha & H).
  apply bind_Ok in H. destruct H as (b & Hb & H).
  apply bind_Ok in H. destruct H as ([dw dh] & Hfit & H).
  apply truediv_Ok in Ha. destruct Ha as [Hh ->].
  apply truediv_Ok in Hb. destruct Hb as [Hih ->].
  exists dw, dh. inversion H. auto.
Qed.

Lemma place_cell_y (cols : Z) (img_w img_h : Q) (i : Z) (sz : Z * Z)
    (p : Placement) :
  place cols img_w img_h i sz = Ok p ->
  y p = (y_offset + (img_h + gap) * (i / cols)%Z)%Q.
Proof.
  destruct sz as [w_px h_px]. intros H.
  apply place_Ok in H. destruct H as (dw & dh & _ & _ & _ & ->).
  reflexivity.
Qed.

Lemma place_total (cols : Z) (img_w img_h : Q) (i w_px h_px : Z) :
  (0 < img_w)%Q -> (0 < img_h)%Q -> h_px <> 0 ->
  exists p : Placement, place cols img_w img_h i (w_px, h_px) = Ok p.
Proof.
  intros Hw Hh Hpx. unfold place.
  rewrite truediv_nonzero by (apply inject_Z_nonzero; exact Hpx). cbn [bind].
  rewrite truediv_nonzero by (apply Qpos_nonzero; exact Hh). cbn [bind].
  unfold fit. destruct (Qgt_bool _ _) eqn:E; cbn [bind]; [|eauto].
  apply Qgt_bool_iff in E.
  assert (Hb : (0 < img_w / img_h)%Q).
  { apply Qlt_shift_div_l; [exact Hh|]. now rewrite Qmult_0_l. }
  rewrite truediv_nonzero; cbn [bind]; [eauto|].
  apply Qpos_nonzero. eapply Qlt_trans; eassumption.
Qed.

Lemma fit_height_le (img_w img_h a dw dh : Q) :
  (0 < img_w)%Q -> (0 < img_h)%Q ->
  fit img_w img_h a (img_w / img_h) = Ok (dw, dh) -> (dh <= img_h)%Q.
Proof.
  intros Hw Hh. unfold fit.
  destruct (Qgt_bool a (img_w / img_h)) eqn:E.
  - apply Qgt_bool_iff in E. intros H.
    apply bind_Ok in H. destruct H as (q & Hq & H).
    apply truediv_Ok in Hq. destruct Hq as [_ ->].
    injection H as _ <-.
    assert (Hb : (0 < img_w / img_h)%Q).
    { apply Qlt_shift_div_l; [exact Hh|]. now rewrite Qmult_0_l. }
    assert (Ha : (0 < a)%Q) by (eapply Qlt_trans; eassumption).
    apply Qle_shift_div_r; [exact Ha|].
    apply Qlt_le_weak.
    setoid_replace img_w with (img_w / img_h * img_h)%Q at 1
      by (symmetry; apply Qdiv_mult_cancel, Qpos_nonzero, Hh).
    rewrite (Qmult_comm img_h a).
    apply Qmult_lt_r; assumption.
  - intros H. injection H as _ <-. apply Qle_refl.
Qed.

(** The drawn rectangle starts at or below the top of its cell. *)
Lemma place_draw_y_ge (cols : Z) (img_w img_h : Q) (i : Z) (sz : Z * Z)
    (p : Placement) :
  (0 < img_w)%Q -> (0 < img_h)%Q ->
  place cols img_w img_h i sz = Ok p -> (y p <= draw_y p)%Q.
Proof.
  intros Hw Hh H. destruct sz as [w_px h_px].
  apply place_Ok in H. destruct H as (dw & dh & _ & _ & Hfit & ->).
  apply fit_height_le in Hfit; [|assumption..].
  cbn [y draw_y].
  assert ((0 <= (img_h - dh) / 2)%Q).
  { apply Qle_shift_div_l; [reflexivity|]. lra. }
  lra.
Qed.


(** The middle of the rectangle of a placement is the middle of its
    cell. *)
Lemma place_centered (cols : Z) (img_w img_h : Q) (i : Z) (sz : Z * Z)
    (p : Placement) :
  place cols img_w img_h i sz = Ok p ->
  (x p == x_offset + (img_w + gap) * (i mod cols)%Z /\
   y p == y_offset + (img_h + gap) * (i / cols)%Z /\
   draw_x p + draw_w p / 2 == x p + img_w / 2 /\
   draw_y p + draw_h p / 2 == y p + img_h / 2)%Q.
Proof.
  destruct sz as [w_px h_px]. intros H.
  apply place_Ok in H. destruct H as (dw & dh & _ & _ & _ & ->).
  cbn [x y draw_x draw_y draw_w draw_h].
  repeat split; try reflexivity; field.
Qed.

End Placement.

(** ** The padding loop *)

Lemma pad_loop_repeat (turns : nat) :
  forall lines : list string,
    Pdf.pad_loop turns lines =
    lines ++ repeat EmptyString (Nat.min turns (10 - List.length lines)).
Proof.
  induction turns as [|turns IH]; intros lines; cbn [Pdf.pad_loop].
  - now rewrite app_nil_r.
  - destruct (Nat.ltb_spec (List.length lines) 10) as [Hlt|Hge].
    + rewrite IH, <- app_assoc, length_app. cbn [List.length app].
      replace (Nat.min (S turns) (10 - List.length lines))
        with (S (Nat.min turns (10 - (List.length lines + 1)))) by lia.
      reflexivity.
    + replace (10 - List.length lines)%nat with 0%nat by lia.
      rewrite Nat.min_0_r. now rewrite app_nil_r.
Qed.

Lemma pad_repeat (lines : list string) :
  Pdf.pad lines = lines ++ repeat EmptyString (10 - List.length lines).
Proof.
  unfold Pdf.pad. rewrite pad_loop_repeat. f_equal. f_equal. lia.
Qed.

(** The loop ends with its guard false. *)
Lemma pad_length (lines : list string) :
  List.length (Pdf.pad lines) = Nat.max (List.length lines) 10.
Proof.
  rewrite pad_repeat, length_app, repeat_length. lia.
Qed.

(** ** The pages of [generate_pdf] *)

Section PdfClaims.

Import Pdf.

Variable UploadedFile : Type.
Variable Image_open : UploadedFile -> result Image.
Variables project_name username report_date : string.

Local Abbreviation generate_pdf :=
  (generate_pdf UploadedFile Image_open project_name username report_date).
Local Abbreviation page_ops :=
  (page_ops UploadedFile Image_open project_name username report_date).
Local Abbreviation image_op := (image_op UploadedFile Image_open).

Lemma cell_texts_app (l1 l2 : list pdf_op) :
  cell_texts (l1 ++ l2) = cell_texts l1 ++ cell_texts l2.
Proof. apply flat_map_app. Qed.

Lemma drawn_images_app (l1 l2 : list pdf_op) :
  drawn_images (l1 ++ l2) = drawn_images l1 ++ drawn_images l2.
Proof. apply flat_map_app. Qed.

Lemma cell_texts_rows (lines : list string) :
  cell_texts (map row_op lines) = lines.
Proof. induction lines; simpl; congruence. Qed.

Lemma drawn_images_rows (lines : list string) :
  drawn_images (map row_op lines) = [].
Proof. induction lines; simpl; congruence. Qed.

Lemma image_op_Ok (cols : Z) (img_w img_h : Q) (i : Z) (f : UploadedFile)
    (op : pdf_op) :
  image_op cols img_w img_h (i, f) = Ok op ->
  exists img p,
    Image_open f = Ok img /\ save_JPEG img = Ok tt /\
    place cols img_w img_h i (size img) = Ok p /\
    op = Img (draw_x p) (draw_y p) (draw_w p) (draw_h p).
Proof.
  unfold image_op. intros H.
  apply bind_Ok in H. destruct H as (img & Himg & H).
  apply bind_Ok in H. destruct H as ([] & Hsave & H).
  apply bind_Ok in H. destruct H as (p & Hp & H).
  inversion H. eauto 6.
Qed.

(** What the image loop draws: one image per file, no text. *)
Lemma image_ops_drawn (cols : Z) (img_w img_h : Q) (l : list (Z * UploadedFile)) :
  forall imgs : list pdf_op,
    mapM (image_op cols img_w img_h) l = Ok imgs ->
    cell_texts imgs = [] /\
    List.length (drawn_images imgs) = List.length l /\
    forall (k : nat) (i : Z) (f : UploadedFile) (r : Q * Q * Q * Q),
      nth_error l k = Some (i, f) ->
      nth_error (drawn_images imgs) k = Some r ->
      exists img p,
        Image_open f = Ok img /\
        place cols img_w img_h i (size img) = Ok p /\
        r = (draw_x p, draw_y p, draw_w p, draw_h p).
Proof.
  induction l as [|[i0 f0] l IH]; intros imgs H; cbn [mapM] in H.
  - inversion H. repeat split; try reflexivity.
    intros [|k]; discriminate.
  - apply bind_Ok in H. destruct H as (op & Hop & H).
    apply bind_Ok in H. destruct H as (imgs' & Himgs & H).
    inversion H; subst imgs. clear H.
    apply image_op_Ok in Hop.
    destruct Hop as (img & p & Hopen & _ & Hplace & ->).
    destruct (IH _ Himgs) as (Htexts & Hlen & Hnth).
    change (cell_texts (Img (draw_x p) (draw_y p) (draw_w p) (draw_h p) :: imgs'))
      with (cell_texts imgs').
    change (drawn_images (Img (draw_x p) (draw_y p) (draw_w p) (draw_h p) :: imgs'))
      with ((draw_x p, draw_y p, draw_w p, draw_h p) :: drawn_images imgs').
    cbn [List.length].
    split; [exact Htexts|]. split; [now rewrite Hlen|].
    intros [|k] i f r Hl Hr; cbn [nth_error] in *.
    + inversion Hl; inversion Hr; subst. eauto.
    + eauto.
Qed.

(** The cell sizes of the grid. *)
Lemma cell_size (n : Z) :
  exists w h : Q,
    img_w (cols n) = Ok w /\ img_h (rows n) = Ok h /\
    (w == if 1 <? n then 61 else 127)%Q /\
    (h == if 2 <? n then 85 # 2 else 90)%Q.
Proof.
  unfold cols, rows. destruct (1 <? n), (2 <? n);
    do 2 eexists; repeat split; reflexivity.
Qed.

Lemma cell_size_pos (n : Z) (w h : Q) :
  img_w (cols n) = Ok w -> img_h (rows n) = Ok h -> (0 < w /\ 0 < h)%Q.
Proof.
  destruct (cell_size n) as (w' & h' & -> & -> & Hw & Hh).
  intros [= <-] [= <-]. rewrite Hw, Hh.
  destruct (1 <? n), (2 <? n); split; reflexivity.
Qed.

(** The parts of a rendered page. *)
Lemma page_ops_Ok (page_num : Z) (page : Page UploadedFile) (ops : list pdf_op) :
  page_ops (page_num, page) = Ok ops ->
  exists (w h : Q) (imgs : list pdf_op),
    let n := Z.of_nat (List.length (images page)) in
    img_w (cols n) = Ok w /\ img_h (rows n) = Ok h /\
    mapM (image_op (cols n) w h) (enumerate 0 (images page)) = Ok imgs /\
    ops = header_ops project_name ++ imgs ++ subject_ops _ page
            ++ map row_op (pad (splitlines (description page)))
            ++ footer_ops username report_date page_num.
Proof.
  unfold page_ops, page_images. intros H.
  apply bind_Ok in H. destruct H as (imgs & Himgs & H).
  apply bind_Ok in Himgs. destruct Himgs as (w & Hw & Himgs).
  apply bind_Ok in Himgs. destruct Himgs as (h & Hh & Himgs).
  inversion H. exists w, h, imgs. auto.
Qed.

Lemma page_cell_texts (page_num : Z) (page : Page UploadedFile) (ops : list pdf_op) :
  page_ops (page_num, page) = Ok ops ->
  cell_texts ops =
  [project_name; " Subject: " ++ title page; "Description:"]%string
    ++ pad (splitlines (description page))
    ++ ["Created by: " ++ username; "Date: " ++ report_date;
        "Page " ++ str page_num]%string.
Proof.
  intros H. apply page_ops_Ok in H.
  destruct H as (w & h & imgs & _ & _ & Himgs & ->).
  apply image_ops_drawn in Himgs. destruct Himgs as (Htexts & _).
  rewrite !cell_texts_app, Htexts, cell_texts_rows. reflexivity.
Qed.

Lemma page_description_rows (page_num : Z) (page : Page UploadedFile)
    (ops : list pdf_op) :
  page_ops (page_num, page) = Ok ops ->
  description_rows ops = pad (splitlines (description page)).
Proof.
  intros H. unfold description_rows. rewrite (page_cell_texts _ _ _ H).
  cbn [skipn app].
  rewrite length_app. cbn [List.length].
  replace (List.length (pad (splitlines (description page))) + 3 - 3)%nat
    with (List.length (pad (splitlines (description page))) + 0)%nat by lia.
  rewrite firstn_app_2. cbn [firstn]. now rewrite app_nil_r.
Qed.

Lemma page_number_of_page (page_num : Z) (page : Page UploadedFile)
    (ops : list pdf_op) :
  page_ops (page_num, page) = Ok ops ->
  subject_text ops = Some (" Subject: " ++ title page)%string /\
  page_number_text ops = Some ("Page " ++ str page_num)%string.
Proof.
  intros H. unfold subject_text, page_number_text.
  rewrite (page_cell_texts _ _ _ H). split; [reflexivity|].
  set (rows := pad (splitlines (description page))).
  replace ([project_name; " Subject: " ++ title page; "Description:"]%string
             ++ rows
             ++ ["Created by: " ++ username; "Date: " ++ report_date;
                 "Page " ++ str page_num]%string)
    with (([project_name; " Subject: " ++ title page; "Description:"]%string
             ++ rows
             ++ ["Created by: " ++ username; "Date: " ++ report_date]%string)
            ++ ["Page " ++ str page_num]%string)
    by (rewrite <- !app_assoc; reflexivity).
  rewrite map_app. cbn [map].
  apply last_last.
Qed.

(** The page rendered from the record at position [j]. *)
Lemma generate_pdf_nth (pages : list (Page UploadedFile))
    (doc : list (list pdf_op)) (j : nat) (page : Page UploadedFile) :
  generate_pdf pages = Ok doc ->
  nth_error pages j = Some page ->
  exists ops,
    nth_error doc j = Some ops /\
    page_ops (Z.of_nat j + 1, page) = Ok ops.
Proof.
  rewrite generate_pdf_pages. intros H Hj.
  assert (Hj' : nth_error (enumerate 1 pages) j = Some (1 + Z.of_nat j, page))
    by (rewrite enumerate_nth_error, Hj; reflexivity).
  destruct (mapM_Ok_nth_error _ _ _ _ _ H Hj') as (ops & Hops & Hpage).
  exists ops. split; [exact Hops|]. now rewrite Z.add_comm.
Qed.

(** The description rows of every page of the document: the lines of
    the description, then blank rows up to 10.  Nothing is cut: a
    description of more than 10 lines gives as many rows. *)
Lemma description_rows_rendered (pages : list (Page UploadedFile))
    (doc : list (list pdf_op)) (j : nat) (page : Page UploadedFile) :
  generate_pdf pages = Ok doc ->
  nth_error pages j = Some page ->
  exists ops,
    nth_error doc j = Some ops /\
    let lines := splitlines (description page) in
    description_rows ops = lines ++ repeat EmptyString (10 - List.length lines) /\
    List.length (description_rows ops) = Nat.max (List.length lines) 10.
Proof.
  intros H Hj.
  destruct (generate_pdf_nth _ _ _ _ H Hj) as (ops & Hops & Hpage).
  exists ops. split; [exact Hops|].
  rewrite (page_description_rows _ _ _ Hpage).
  split; [apply pad_repeat | apply pad_length].
Qed.

(** X8. A description of at most 10 lines: exactly 10 rows. *)
Lemma description_rows_padded (pages : list (Page UploadedFile))
    (doc : list (list pdf_op)) (j : nat) (page : Page UploadedFile) :
  generate_pdf pages = Ok doc ->
  nth_error pages j = Some page ->
  (List.length (splitlines (description page)) <= 10)%nat ->
  exists ops,
    nth_error doc j = Some ops /\
    List.length (description_rows ops) = 10%nat /\
    description_rows ops =
    splitlines (description page)
      ++ repeat EmptyString (10 - List.length (splitlines (description page))).
Proof.
  intros H Hj Hk.
  destruct (description_rows_rendered _ _ _ _ H Hj) as (ops & Hops & Hrows & Hlen).
  exists ops. repeat split; [exact Hops | | exact Hrows].
  rewrite Hlen. lia.
Qed.

(** A description of more than 10 lines: every line is a row. *)
Lemma description_rows_not_cut (pages : list (Page UploadedFile))
    (doc : list (list pdf_op)) (j : nat) (page : Page UploadedFile) :
  generate_pdf pages = Ok doc ->
  nth_error pages j = Some page ->
  (10 < List.length (splitlines (description page)))%nat ->
  exists ops,
    nth_error doc j = Some ops /\
    description_rows ops = splitlines (description page).
Proof.
  intros H Hj Hk.
  destruct (description_rows_rendered _ _ _ _ H Hj) as (ops & Hops & Hrows & _).
  exists ops. split; [exact Hops|].
  rewrite Hrows.
  replace (10 - List.length (splitlines (description page)))%nat with 0%nat by lia.
  apply app_nil_r.
Qed.

(** C5. The document has one page per record, in the order of the
    records, and the page of the record at position [i] (from 0) is
    numbered [i + 1]: the page numbers are 1, ..., m. *)
Theorem page_numbers_sequential (pages : list (Page UploadedFile))
    (doc : list (list pdf_op)) :
  generate_pdf pages = Ok doc ->
  List.length doc = List.length pages /\
  (forall (i : nat) (page : Page UploadedFile),
      nth_error pages i = Some page ->
      exists ops,
        nth_error doc i = Some ops /\
        subject_text ops = Some (" Subject: " ++ title page)%string /\
        page_number_text ops = Some ("Page " ++ str (Z.of_nat i + 1))%string) /\
  map page_number_text doc =
  map (fun i => Some ("Page " ++ str (Z.of_nat i))%string)
    (seq 1 (List.length pages)).
Proof.
  intros H.
  assert (Hlen : List.length doc = List.length pages).
  { rewrite generate_pdf_pages in H. apply mapM_Ok_length in H.
    now rewrite enumerate_length in H. }
  assert (Hnth : forall (i : nat) (page : Page UploadedFile),
             nth_error pages i = Some page ->
             exists ops,
               nth_error doc i = Some ops /\
               subject_text ops = Some (" Subject: " ++ title page)%string /\
               page_number_text ops = Some ("Page " ++ str (Z.of_nat i + 1))%string).
  { intros i page Hi.
    destruct (generate_pdf_nth _ _ _ _ H Hi) as (ops & Hops & Hpage).
    exists ops. split; [exact Hops|].
    exact (page_number_of_page _ _ _ Hpage). }
  split; [exact Hlen|]. split; [exact Hnth|].
  apply nth_error_ext. intros i.
  rewrite !nth_error_map.
  destruct (nth_error pages i) as [page|] eqn:Hi.
  - destruct (Hnth i page Hi) as (ops & -> & _ & Hnum).
    assert (i < List.length pages)%nat by (apply nth_error_Some; congruence).
    rewrite nth_error_seq.
    destruct (Nat.ltb_spec i (List.length pages)) as [_|?]; [|lia].
    cbn [option_map]. rewrite Hnum.
    replace (Z.of_nat (1 + i)) with (Z.of_nat i + 1) by lia. reflexivity.
  - apply nth_error_None in Hi.
    assert (Hd : nth_error doc i = None) by (apply nth_error_None; lia).
    rewrite Hd. rewrite nth_error_seq.
    destruct (Nat.ltb_spec i (List.length pages)) as [?|_]; [lia|].
    reflexivity.
Qed.


(** An image that does not open ends [generate_pdf] with an
    exception, wherever the image is. *)
Lemma generate_pdf_aborts (pages : list (Page UploadedFile))
    (page : Page UploadedFile) (f : UploadedFile) (e : exn) :
  In page pages -> In f (images page) -> Image_open f = Raise e ->
  exists e', generate_pdf pages = Raise e'.
Proof.
  intros Hpage Hf Hopen. rewrite generate_pdf_pages.
  destruct (In_enumerate _ _ Hpage 1) as [page_num Hin].
  destruct (In_enumerate _ _ Hf 0) as [i Hi].
  assert (Himgs : exists e1, page_images _ Image_open page = Raise e1).
  { unfold page_images.
    destruct (img_w _) as [w|e1]; cbn [bind]; [|eauto].
    destruct (img_h _) as [h|e1]; cbn [bind]; [|eauto].
    apply (mapM_Raise_In _ _ _ e Hi).
    unfold Pdf.image_op. now rewrite Hopen. }
  destruct Himgs as [e1 He1].
  apply (mapM_Raise_In _ _ _ e1 Hin).
  unfold Pdf.page_ops. now rewrite He1.
Qed.

(** C10. Every image of a page is placed, however many there are;
    with more than 4, the images from the fifth on are in grid row 2
    or further, and drawn below the bottom of the collage region. *)
Theorem images_beyond_fourth_below_collage (pages : list (Page UploadedFile))
    (doc : list (list pdf_op)) (j : nat) (page : Page UploadedFile) :
  generate_pdf pages = Ok doc ->
  nth_error pages j = Some page ->
  (4 < List.length (images page))%nat ->
  exists ops,
    nth_error doc j = Some ops /\
    List.length (drawn_images ops) = List.length (images page) /\
    forall (i : nat) (x y w h : Q),
      (4 <= i)%nat ->
      nth_error (drawn_images ops) i = Some (x, y, w, h) ->
      2 <= Z.of_nat i / cols (Z.of_nat (List.length (images page))) /\
      (y_offset + collage_height < y)%Q.
Proof.
  intros H Hj Hn.
  destruct (generate_pdf_nth _ _ _ _ H Hj) as (ops & Hops & Hpage).
  exists ops. split; [exact Hops|].
  apply page_ops_Ok in Hpage.
  destruct Hpage as (cw & ch & imgs & Hw & Hh & Himgs & ->).
  cbv zeta in Hw, Hh, Himgs.
  destruct (cell_size_pos _ _ _ Hw Hh) as [Hwpos Hhpos].
  destruct (cell_size (Z.of_nat (List.length (images page))))
    as (cw' & ch' & Hw' & Hh' & _ & Hch).
  rewrite Hh in Hh'. injection Hh' as <-.
  assert (Hrows : (2 <? Z.of_nat (List.length (images page))) = true)
    by (apply Z.ltb_lt; lia).
  rewrite Hrows in Hch.
  assert (Hcols : cols (Z.of_nat (List.length (images page))) = 2).
  { unfold cols.
    replace (1 <? Z.of_nat (List.length (images page))) with true
      by (symmetry; apply Z.ltb_lt; lia).
    reflexivity. }
  apply image_ops_drawn in Himgs. destruct Himgs as (_ & Hlen & Hnth).
  rewrite !drawn_images_app, drawn_images_rows.
  change (drawn_images (header_ops project_name)) with (@nil (Q * Q * Q * Q)).
  change (drawn_images (subject_ops UploadedFile page)) with (@nil (Q * Q * Q * Q)).
  change (drawn_images (footer_ops username report_date (Z.of_nat j + 1)))
    with (@nil (Q * Q * Q * Q)).
  cbn [app]. rewrite app_nil_r.
  split; [now rewrite Hlen, enumerate_length|].
  intros i x y w h Hi Hr.
  assert (Hrow : 2 <= Z.of_nat i / 2) by (apply Z.div_le_lower_bound; lia).
  rewrite Hcols. split; [exact Hrow|].
  assert (Hif : exists f, nth_error (images page) i = Some f).
  { destruct (nth_error (images page) i) as [f|] eqn:E; [eauto|].
    apply nth_error_None in E.
    assert (i < List.length (drawn_images imgs))%nat
      by (apply nth_error_Some; congruence).
    rewrite Hlen, enumerate_length in *. lia. }
  destruct Hif as [f Hf].
  assert (Hl : nth_error (enumerate 0 (images page)) i = Some (Z.of_nat i, f))
    by (rewrite enumerate_nth_error, Hf; reflexivity).
  destruct (Hnth _ _ _ _ Hl Hr) as (img & p & _ & Hplace & [= -> -> -> ->]).
  pose proof (place_draw_y_ge _ _ _ _ _ _ Hwpos Hhpos Hplace) as Hge.
  pose proof (place_cell_y _ _ _ _ _ _ Hplace) as Hy.
  rewrite Hcols in Hy.
  apply (Qlt_le_trans _ (Pdf.y p)); [|exact Hge].
  rewrite Hy, Hch.
  assert (Hq : (2 <= inject_Z (Z.of_nat i / 2))%Q).
  { change 2%Q with (inject_Z 2). rewrite <- Zle_Qle. exact Hrow. }
  unfold y_offset, collage_height, gap.
  change (inject_Z 25) with 25%Q. change (inject_Z 90) with 90%Q.
  change (inject_Z 5) with 5%Q.
  lra.
Qed.

End PdfClaims.

(** ** The images of a rendered page *)

Section PdfPlaced.

Import Pdf.

Variable UploadedFile : Type.
Variable Image_open : UploadedFile -> result Image.
Variables project_name username report_date : string.

Local Abbreviation generate_pdf :=
  (generate_pdf UploadedFile Image_open project_name username report_date).

(** The images drawn on a rendered page: one per file of the record,
    in order, each the rectangle [place] computes from the index and
    the decoded size of its file, in the cells of the grid of the
    page. *)
Lemma page_images_placed (pages : list (Page UploadedFile))
    (doc : list (list pdf_op)) (j : nat) (page : Page UploadedFile) :
  generate_pdf pages = Ok doc ->
  nth_error pages j = Some page ->
  let n := Z.of_nat (List.length (images page)) in
  exists ops (cellW cellH : Q),
    nth_error doc j = Some ops /\
    img_w (cols n) = Ok cellW /\ img_h (rows n) = Ok cellH /\
    (0 < cellW)%Q /\ (0 < cellH)%Q /\
    List.length (drawn_images ops) = List.length (images page) /\
    forall (i : nat) (r : Q * Q * Q * Q),
      nth_error (drawn_images ops) i = Some r ->
      exists f img p,
        nth_error (images page) i = Some f /\
        Image_open f = Ok img /\
        place (cols n) cellW cellH (Z.of_nat i) (size img) = Ok p /\
        r = (draw_x p, draw_y p, draw_w p, draw_h p).
Proof.
  intros H Hj n.
  destruct (generate_pdf_nth _ _ _ _ _ _ _ _ _ H Hj) as (ops & Hops & Hpage).
  apply page_ops_Ok in Hpage.
  destruct Hpage as (w & h & imgs & Hw & Hh & Himgs & ->).
  cbv zeta in Hw, Hh, Himgs. fold n in Hw, Hh, Himgs.
  destruct (cell_size_pos _ _ _ Hw Hh) as [Hwpos Hhpos].
  apply image_ops_drawn in Himgs. destruct Himgs as (_ & Hlen & Hnth).
  rewrite enumerate_length in Hlen.
  eexists. exists w, h. split; [exact Hops|].
  split; [exact Hw|]. split; [exact Hh|].
  split; [exact Hwpos|]. split; [exact Hhpos|].
  rewrite !drawn_images_app, drawn_images_rows.
  change (drawn_images (header_ops project_name)) with (@nil (Q * Q * Q * Q)).
  change (drawn_images (subject_ops UploadedFile page)) with (@nil (Q * Q * Q * Q)).
  change (drawn_images (footer_ops username report_date (Z.of_nat j + 1)))
    with (@nil (Q * Q * Q * Q)).
  cbn [app]. rewrite app_nil_r.
  split; [exact Hlen|].
  intros i r Hr.
  assert (Hi : (i < List.length (images page))%nat)
    by (rewrite <- Hlen; apply nth_error_Some; congruence).
  destruct (nth_error (images page) i) as [f|] eqn:Hf;
    [|apply nth_error_None in Hf; lia].
  assert (Hl : nth_error (enumerate 0 (images page)) i = Some (Z.of_nat i, f))
    by (rewrite enumerate_nth_error, Hf; reflexivity).
  destruct (Hnth _ _ _ _ Hl Hr) as (img & p & Hopen & Hplace & ->).
  exists f, img, p. auto.
Qed.


(** C4. On every page [generate_pdf] returns, each image is drawn
    centred in its cell: the cell of the image of index [i] has its
    corner at
    [x_offset + (cellW + gap) * (i % cols)] and
    [y_offset + (cellH + gap) * (i // cols)], and the middle of the
    drawn rectangle is the middle of the cell. *)
Theorem image_centered (pages : list (Page UploadedFile))
    (doc : list (list pdf_op)) (j : nat) (page : Page UploadedFile) :
  generate_pdf pages = Ok doc ->
  nth_error pages j = Some page ->
  let n := Z.of_nat (List.length (images page)) in
  exists ops (cellW cellH : Q),
    nth_error doc j = Some ops /\
    img_w (cols n) = Ok cellW /\ img_h (rows n) = Ok cellH /\
    List.length (drawn_images ops) = List.length (images page) /\
    forall (i : nat) (x y w h : Q),
      nth_error (drawn_images ops) i = Some (x, y, w, h) ->
      let cell_x := (x_offset + (cellW + gap) * (Z.of_nat i mod cols n)%Z)%Q in
      let cell_y := (y_offset + (cellH + gap) * (Z.of_nat i / cols n)%Z)%Q in
      (x + w / 2 == cell_x + cellW / 2 /\ y + h / 2 == cell_y + cellH / 2)%Q.
Proof.
  intros H Hj n.
  destruct (page_images_placed _ _ _ _ H Hj)
    as (ops & cellW & cellH & Hops & Hw & Hh & _ & _ & Hlen & Hnth).
  exists ops, cellW, cellH. split; [exact Hops|].
  split; [exact Hw|]. split; [exact Hh|]. split; [exact Hlen|].
  intros i x y w h Hr.
  destruct (Hnth _ _ Hr) as (f & img & p & _ & _ & Hplace & Hrp).
  injection Hrp as -> -> -> ->.
  destruct (place_centered _ _ _ _ _ _ Hplace) as (Hx & Hy & Hcx & Hcy).
  cbv zeta. split.
  - rewrite Hcx. rewrite Hx. reflexivity.
  - rewrite Hcy. rewrite Hy. reflexivity.
Qed.

End PdfPlaced.

(** ** [Image.thumbnail] *)

Lemma Qfloor_bounds (q : Q) : (q - 1 < Qfloor q /\ Qfloor q <= q)%Q.
Proof.
  split; [|apply Qfloor_le].
  pose proof (Qlt_floor q) as H. rewrite inject_Z_plus in H.
  change (inject_Z 1) with 1%Q in H. lra.
Qed.

Lemma Qceiling_bounds (q : Q) : (q <= Qceiling q /\ Qceiling q < q + 1)%Q.
Proof.
  split; [apply Qle_ceiling|].
  pose proof (Qceiling_lt q) as H. unfold Z.sub in H.
  rewrite inject_Z_plus in H.
  change (inject_Z (- (1))) with (- (1))%Q in H. lra.
Qed.

(** The rounded length is a whole number of pixels, at least 1, and
    less than one pixel away from the exact length. *)
Lemma round_aspect_near (number : Q) (key : Z -> Q) :
  (0 < number)%Q ->
  1 <= round_aspect number key /\
  (number - 1 < round_aspect number key /\ round_aspect number key < number + 1)%Q.
Proof.
  intros Hpos. unfold round_aspect.
  split; [apply Z.le_max_r|].
  pose proof (Qfloor_bounds number) as [Hf1 Hf2].
  pose proof (Qceiling_bounds number) as [Hc1 Hc2].
  set (c := if Qle_bool _ _ then Qfloor number else Qceiling number).
  assert (Hc : (number - 1 < c /\ c < number + 1)%Q).
  { subst c. destruct (Qle_bool _ _); split; lra. }
  destruct (Z.max_spec c 1) as [[Hlt ->]|[Hge ->]].
  - change (inject_Z 1) with 1%Q.
    assert (Hc0 : (inject_Z c <= 0)%Q).
    { change 0%Q with (inject_Z 0). rewrite <- Zle_Qle. lia. }
    split; lra.
  - exact Hc.
Qed.

Lemma round_aspect_le (number : Q) (key : Z -> Q) (n : Z) :
  (number <= n)%Q -> 1 <= n -> round_aspect number key <= n.
Proof.
  intros Hle Hn. unfold round_aspect.
  apply Z.max_lub; [|exact Hn].
  assert (Hceil : Qceiling number <= n).
  { rewrite <- (Qceiling_Z n). apply Qceiling_resp_le. exact Hle. }
  pose proof (Qle_floor_ceiling number) as Hfc.
  rewrite <- Zle_Qle in Hfc.
  destruct (Qle_bool _ _); lia.
Qed.

(** The size of the thumbnail of an image of [w] by [h] pixels in a box
    of [x] by [y]: it fits the box, is no larger than the image, and is
    the size of the image or the box with one side shortened to the
    proportional length, up to less than a pixel. *)
Lemma thumbnail_size_fits (w h x y : Z) :
  0 < w -> 0 < h -> 0 < x -> 0 < y ->
  exists w' h' : Z,
    thumbnail_size (w, h) (x, y) = Ok (w', h') /\
    1 <= w' <= x /\ 1 <= h' <= y /\ w' <= w /\ h' <= h /\
    ((w', h') = (w, h) \/
     (h' = y /\ y * w / h - 1 < w' /\ w' < y * w / h + 1)%Q \/
     (w' = x /\ x * h / w - 1 < h' /\ h' < x * h / w + 1)%Q).
Proof.
  intros Hw Hh Hx Hy.
  pose proof (inject_Z_pos _ Hw) as HwQ.
  pose proof (inject_Z_pos _ Hh) as HhQ.
  pose proof (inject_Z_pos _ Hx) as HxQ.
  pose proof (inject_Z_pos _ Hy) as HyQ.
  unfold thumbnail_size.
  destruct ((w <=? x) && (h <=? y)) eqn:Efit.
  - apply andb_true_iff in Efit. destruct Efit as [E1 E2].
    apply Z.leb_le in E1, E2.
    exists w, h. split; [reflexivity|]. repeat split; try lia. now left.
  - assert (Hbig : x < w \/ y < h).
    { apply andb_false_iff in Efit.
      destruct Efit as [E|E]; apply Z.leb_gt in E; lia. }
    rewrite truediv_nonzero by (apply Qpos_nonzero; exact HhQ). cbn [bind].
    rewrite truediv_nonzero by (apply Qpos_nonzero; exact HyQ). cbn [bind].
    set (aspect := (w / h)%Q).
    assert (Ha : (aspect * h == w)%Q)
      by (apply Qdiv_mult_cancel, Qpos_nonzero; exact HhQ).
    assert (Hb : (x / y * y == x)%Q)
      by (apply Qdiv_mult_cancel, Qpos_nonzero; exact HyQ).
    assert (Hapos : (0 < aspect)%Q).
    { apply Qlt_shift_div_l; [exact HhQ|]. now rewrite Qmult_0_l. }
    assert (HbigQ : (inject_Z x < w \/ inject_Z y < h)%Q).
    { destruct Hbig; [left|right]; rewrite <- Zlt_Qlt; assumption. }
    destruct (Qle_bool aspect (x / y)) eqn:E.
    + apply Qle_bool_iff in E.
      assert (Hyh : (inject_Z y < h)%Q).
      { destruct HbigQ as [Hxw|]; [|assumption].
        apply Qnot_le_lt. intros Hhy. nra. }
      assert (Hnum_pos : (0 < y * aspect)%Q) by nra.
      assert (Hnum_x : (y * aspect <= x)%Q) by nra.
      assert (Hnum_w : (y * aspect <= w)%Q) by nra.
      destruct (round_aspect_near _ (fun n => Qabs (aspect - n / y)%Q) Hnum_pos)
        as (H1 & H2 & H3).
      eexists _, y. split; [reflexivity|].
      assert (Hyh' : y < h) by (rewrite Zlt_Qlt; exact Hyh).
      split; [split; [exact H1 | apply round_aspect_le; [exact Hnum_x | lia]]|].
      split; [lia|].
      split; [apply round_aspect_le; [exact Hnum_w | lia]|].
      split; [lia|].
      right; left. split; [reflexivity|].
      assert (Heq : (y * w / h == y * aspect)%Q)
        by (unfold aspect; field; apply Qpos_nonzero; exact HhQ).
      rewrite Heq. split; assumption.
    + assert (E' : (x / y < aspect)%Q).
      { apply Qnot_le_lt. intros L. apply Qle_bool_iff in L. congruence. }
      clear E.
      rewrite truediv_nonzero by (apply Qpos_nonzero; exact Hapos). cbn [bind].
      assert (Hn : (x / aspect * aspect == x)%Q)
        by (apply Qdiv_mult_cancel, Qpos_nonzero; exact Hapos).
      assert (Hnum_pos : (0 < x / aspect)%Q).
      { apply Qlt_shift_div_l; [exact Hapos|]. now rewrite Qmult_0_l. }
      assert (Hxw : (inject_Z x < w)%Q).
      { destruct HbigQ as [|Hyh]; [assumption|].
        apply Qnot_le_lt. intros Hwx. nra. }
      assert (Hnum_y : (x / aspect <= y)%Q).
      { apply Qle_shift_div_r; [exact Hapos|]. nra. }
      assert (Hnum_h : (x / aspect <= h)%Q).
      { apply Qle_shift_div_r; [exact Hapos|]. nra. }
      destruct (round_aspect_near _
                  (fun n => if n =? 0 then 0%Q else Qabs (aspect - x / n)%Q)
                  Hnum_pos) as (H1 & H2 & H3).
      assert (Hxw' : x < w) by (rewrite Zlt_Qlt; exact Hxw).
      eexists x, _. split; [reflexivity|].
      split; [lia|].
      split; [split; [exact H1 | apply round_aspect_le; [exact Hnum_y | lia]]|].
      split; [lia|].
      split; [apply round_aspect_le; [exact Hnum_h | lia]|].
      right; right. split; [reflexivity|].
      assert (Heq : (x * h / w == x / aspect)%Q).
      { unfold aspect. field. split; apply Qpos_nonzero; assumption. }
      rewrite Heq. split; assumption.
Qed.

(** ** The canvas of [generate_thumbnail] *)

Section ThumbnailClaims.

Import Thumbnail.

Variable UploadedFile : Type.
Variable Image_open : UploadedFile -> result Image.

Local Abbreviation generate_thumbnail :=
  (generate_thumbnail UploadedFile Image_open).
Local Abbreviation paste_op := (paste_op UploadedFile Image_open).

Lemma paste_images_eq (l : list (Z * UploadedFile)) :
  forall thumb : Canvas,
    paste_images _ Image_open thumb l =
    (ps <- mapM paste_op l ;;
     Ok {| canvas_size := canvas_size thumb;
           bg_color := bg_color thumb;
           drawn := drawn thumb ++ ps |}).
Proof.
  induction l as [|[i f] l IH]; intros thumb; cbn [paste_images mapM bind].
  - rewrite app_nil_r. now destruct thumb.
  - unfold Thumbnail.paste_op at 1.
    destruct (Image_open f) as [img|e]; cbn [bind]; [|reflexivity].
    destruct (thumbnail (convert_RGB img) (img_w, img_h)) as [img'|e];
      cbn [bind]; [|reflexivity].
    rewrite IH.
    destruct (mapM _ l) as [ps|e]; cbn [bind]; [|reflexivity].
    cbn [put canvas_size bg_color drawn]. now rewrite <- app_assoc.
Qed.

Lemma draw_lines_eq (l : list (Z * string)) :
  forall thumb : Canvas,
    draw_lines thumb l =
    {| canvas_size := canvas_size thumb;
       bg_color := bg_color thumb;
       drawn := drawn thumb ++ map line_op l |}.
Proof.
  induction l as [|[i line] l IH]; intros thumb; cbn [draw_lines map].
  - rewrite app_nil_r. now destruct thumb.
  - rewrite IH. cbn [put canvas_size bg_color drawn line_op].
    now rewrite <- app_assoc.
Qed.

Lemma generate_thumbnail_drawn (page : Page UploadedFile) :
  generate_thumbnail page =
  (ps <- mapM paste_op (enumerate 0 (firstn 4 (images page))) ;;
   Ok {| canvas_size := (width, height);
         bg_color := (245, 245, 245);
         drawn := Text (10, 10) ("Subject: " ++ title page) :: ps
                    ++ map line_op
                         (enumerate 0 (firstn 6 (splitlines (description page)))) |}).
Proof.
  unfold Thumbnail.generate_thumbnail. rewrite paste_images_eq.
  destruct (mapM _ _) as [ps|e]; cbn [bind]; [|reflexivity].
  rewrite draw_lines_eq. reflexivity.
Qed.

Lemma pasted_ops_app (l1 l2 : list canvas_op) :
  pasted_ops (l1 ++ l2) = pasted_ops l1 ++ pasted_ops l2.
Proof. apply flat_map_app. Qed.

Lemma pasted_ops_lines (l : list (Z * string)) :
  pasted_ops (map line_op l) = [].
Proof. induction l as [|[i line] l IH]; [reflexivity | exact IH]. Qed.

Lemma paste_op_Ok (i : Z) (f : UploadedFile) (op : canvas_op) :
  paste_op (i, f) = Ok op ->
  exists orig img,
    Image_open f = Ok orig /\
    thumbnail (convert_RGB orig) (img_w, img_h) = Ok img /\
    op = Paste img (start_x + cell_col i * (img_w + gap),
                    start_y + cell_row i * (img_h + gap)).
Proof.
  unfold Thumbnail.paste_op. intros H.
  apply bind_Ok in H. destruct H as (orig & Horig & H).
  apply bind_Ok in H. destruct H as (img & Himg & H).
  inversion H. eauto.
Qed.

(** What the image loop pastes: one image per file. *)
Lemma paste_ops_pasted (l : list (Z * UploadedFile)) :
  forall ps : list canvas_op,
    mapM paste_op l = Ok ps ->
    List.length (pasted_ops ps) = List.length l /\
    forall (k : nat) (i : Z) (f : UploadedFile) (img : Image) (xy : Z * Z),
      nth_error l k = Some (i, f) ->
      nth_error (pasted_ops ps) k = Some (img, xy) ->
      exists orig,
        Image_open f = Ok orig /\
        thumbnail (convert_RGB orig) (img_w, img_h) = Ok img /\
        xy = (start_x + cell_col i * (img_w + gap),
              start_y + cell_row i * (img_h + gap)).
Proof.
  induction l as [|[i0 f0] l IH]; intros ps H; cbn [mapM] in H.
  - inversion H. split; [reflexivity|]. intros [|k]; discriminate.
  - apply bind_Ok in H. destruct H as (op & Hop & H).
    apply bind_Ok in H. destruct H as (ps' & Hps & H).
    inversion H; subst ps. clear H.
    apply paste_op_Ok in Hop. destruct Hop as (orig & img0 & Hopen & Hth & ->).
    destruct (IH _ Hps) as (Hlen & Hnth).
    change (pasted_ops (Paste img0 ?xy :: ps'))
      with ((img0, xy) :: pasted_ops ps').
    cbn [List.length]. split; [now rewrite Hlen|].
    intros [|k] i f img xy Hl Hr; cbn [nth_error] in *.
    + inversion Hl; inversion Hr; subst. eauto.
    + eauto.
Qed.

(** The images on the canvas of a page. *)
Lemma generate_thumbnail_pasted (page : Page UploadedFile) (thumb : Canvas) :
  generate_thumbnail page = Ok thumb ->
  List.length (pasted thumb) = Nat.min 4 (List.length (images page)) /\
  forall (k : nat) (img : Image) (xy : Z * Z),
    nth_error (pasted thumb) k = Some (img, xy) ->
    (k < 4)%nat /\
    exists f orig,
      nth_error (images page) k = Some f /\
      Image_open f = Ok orig /\
      thumbnail (convert_RGB orig) (img_w, img_h) = Ok img /\
      xy = (start_x + cell_col (Z.of_nat k) * (img_w + gap),
            start_y + cell_row (Z.of_nat k) * (img_h + gap)).
Proof.
  rewrite generate_thumbnail_drawn. intros H.
  apply bind_Ok in H. destruct H as (ps & Hps & H).
  inversion H; subst thumb. clear H.
  unfold pasted. cbn [drawn].
  change (pasted_ops (Text ?xy ?s :: ?l)) with (pasted_ops l).
  rewrite pasted_ops_app, pasted_ops_lines, app_nil_r.
  apply paste_ops_pasted in Hps. destruct Hps as (Hlen & Hnth).
  rewrite enumerate_length, length_firstn in Hlen.
  split; [exact Hlen|].
  intros k img xy Hk.
  assert (Hlt : (k < Nat.min 4 (List.length (images page)))%nat)
    by (rewrite <- Hlen; apply nth_error_Some; congruence).
  split; [lia|].
  destruct (nth_error (firstn 4 (images page)) k) as [f|] eqn:Hf.
  - assert (Hl : nth_error (enumerate 0 (firstn 4 (images page))) k
                 = Some (Z.of_nat k, f))
      by (rewrite enumerate_nth_error, Hf; reflexivity).
    destruct (Hnth _ _ _ _ _ Hl Hk) as (orig & Hopen & Hth & Hxy).
    exists f, orig. repeat split; try assumption.
    rewrite nth_error_firstn in Hf.
    destruct (Nat.ltb_spec k 4); [exact Hf | discriminate].
  - apply nth_error_None in Hf. rewrite length_firstn in Hf. lia.
Qed.

(** C6. The preview pastes the image of index [k] in the cell the
    printed page gives it: row [k // cols], column [k % cols] of the
    grid of [rows] by [cols] cells of the number of images of the
    record; and with at least one image, each row and each column of
    that grid holds a pasted image. *)
Theorem thumbnail_grid_agrees (page : Page UploadedFile) (thumb : Canvas) :
  generate_thumbnail page = Ok thumb ->
  let n := Z.of_nat (List.length (images page)) in
  (forall (k : nat) (img : Image) (xy : Z * Z),
      nth_error (pasted thumb) k = Some (img, xy) ->
      let row := Z.of_nat k / Pdf.cols n in
      let col := Z.of_nat k mod Pdf.cols n in
      0 <= row < Pdf.rows n /\ 0 <= col < Pdf.cols n /\
      xy = (start_x + col * (img_w + gap), start_y + row * (img_h + gap))) /\
  (1 <= n ->
   (forall row : Z, 0 <= row < Pdf.rows n ->
      exists k img x,
        nth_error (pasted thumb) k = Some (img, (x, start_y + row * (img_h + gap)))) /\
   (forall col : Z, 0 <= col < Pdf.cols n ->
      exists k img y,
        nth_error (pasted thumb) k = Some (img, (start_x + col * (img_w + gap), y)))).
Proof.
  intros H n.
  destruct (generate_thumbnail_pasted _ _ H) as (Hlen & Hnth).
  assert (Hcell : forall (k : nat) (img : Image) (xy : Z * Z),
             nth_error (pasted thumb) k = Some (img, xy) ->
             0 <= Z.of_nat k / Pdf.cols n < Pdf.rows n /\
             0 <= Z.of_nat k mod Pdf.cols n < Pdf.cols n /\
             xy = (start_x + Z.of_nat k mod Pdf.cols n * (img_w + gap),
                   start_y + Z.of_nat k / Pdf.cols n * (img_h + gap))).
  { intros k img xy Hk.
    assert (Hlt : (k < Nat.min 4 (List.length (images page)))%nat)
      by (rewrite <- Hlen; apply nth_error_Some; congruence).
    destruct (Hnth _ _ _ Hk) as (_ & f & orig & _ & _ & _ & ->).
    unfold cell_col, cell_row, Pdf.cols, Pdf.rows.
    destruct (Z.ltb_spec 1 n), (Z.ltb_spec 2 n); try lia.
    - repeat split; try lia.
      + apply Z.div_pos; lia.
      + apply Z.div_lt_upper_bound; lia.
      + apply Z.mod_pos_bound; lia.
      + apply Z.mod_pos_bound; lia.
    - assert (k = 0 \/ k = 1)%nat as [-> | ->] by lia;
        repeat split; cbn; lia.
    - assert (k = 0)%nat as -> by lia. repeat split; cbn; lia. }
  split; [exact Hcell|].
  intros Hn.
  assert (Hget : forall k : nat,
             (k < Nat.min 4 (List.length (images page)))%nat ->
             exists img xy, nth_error (pasted thumb) k = Some (img, xy)).
  { intros k Hk. rewrite <- Hlen in Hk. apply nth_error_Some in Hk.
    destruct (nth_error (pasted thumb) k) as [[img xy]|]; [eauto | congruence]. }
  split.
  - intros row Hrow.
    assert (Hk : exists k : nat,
               (k < Nat.min 4 (List.length (images page)))%nat /\
               Z.of_nat k / Pdf.cols n = row).
    { revert Hrow. unfold Pdf.rows, Pdf.cols.
      destruct (Z.ltb_spec 1 n), (Z.ltb_spec 2 n); intros Hrow; try lia.
      - assert (row = 0 \/ row = 1) as [-> | ->] by lia;
          [exists 0%nat | exists 2%nat]; split; try reflexivity; lia.
      - assert (row = 0) as -> by lia. exists 0%nat. split; [lia | reflexivity].
      - assert (row = 0) as -> by lia. exists 0%nat. split; [lia | reflexivity]. }
    destruct Hk as (k & Hk & <-).
    destruct (Hget k Hk) as (img & xy & Hxy).
    destruct (Hcell _ _ _ Hxy) as (_ & _ & ->). eauto.
  - intros col Hcol.
    assert (Hk : exists k : nat,
               (k < Nat.min 4 (List.length (images page)))%nat /\
               Z.of_nat k mod Pdf.cols n = col).
    { revert Hcol. unfold Pdf.cols.
      destruct (Z.ltb_spec 1 n); intros Hcol.
      - assert (col = 0 \/ col = 1) as [-> | ->] by lia;
          [exists 0%nat | exists 1%nat]; split; try reflexivity; lia.
      - assert (col = 0) as -> by lia. exists 0%nat. split; [lia | reflexivity]. }
    destruct Hk as (k & Hk & <-).
    destruct (Hget k Hk) as (img & xy & Hxy).
    destruct (Hcell _ _ _ Hxy) as (_ & _ & ->). eauto.
Qed.

(** The preview is returned when each of the first 4 files of the
    page opens as an image of positive width and height: no other
    file is looked at. *)
Lemma generate_thumbnail_total (page : Page UploadedFile) :
  (forall f, In f (firstn 4 (images page)) ->
     exists img, Image_open f = Ok img /\
                 0 < fst (size img) /\ 0 < snd (size img)) ->
  exists thumb, generate_thumbnail page = Ok thumb.
Proof.
  intros Hall. rewrite generate_thumbnail_drawn.
  destruct (mapM_all_Ok paste_op (enumerate 0 (firstn 4 (images page))))
    as [ps ->]; [|cbn [bind]; eauto].
  intros [i f] Hin. apply In_enumerate_snd in Hin.
  destruct (Hall f Hin) as (img & Hopen & Hw & Hh).
  unfold Thumbnail.paste_op. rewrite Hopen. cbn [bind].
  unfold thumbnail. cbn [convert_RGB size].
  destruct (size img) as [w h]. cbn [fst snd] in Hw, Hh.
  destruct (thumbnail_size_fits w h img_w img_h Hw Hh eq_refl eq_refl)
    as (w' & h' & -> & _).
  cbn [bind]. eauto.
Qed.

(** C7. With more than 4 images, the preview is the preview of the
    first 4: the others are not opened.  A returned canvas has 4
    pasted images, those of the first 4 files; and a canvas is
    returned when the first 4 files open as images of positive size,
    whatever the other files are. *)
Theorem thumbnail_ignores_beyond_fourth (page : Page UploadedFile) :
  (4 < List.length (images page))%nat ->
  generate_thumbnail page =
  generate_thumbnail
    {| images := firstn 4 (images page);
       title := title page;
       description := description page |} /\
  (forall thumb : Canvas,
    generate_thumbnail page = Ok thumb ->
    List.length (pasted thumb) = 4%nat /\
    forall (k : nat) (img : Image) (xy : Z * Z),
      nth_error (pasted thumb) k = Some (img, xy) ->
      exists f orig,
        nth_error (firstn 4 (images page)) k = Some f /\
        Image_open f = Ok orig /\
        thumbnail (convert_RGB orig) (img_w, img_h) = Ok img) /\
  ((forall f, In f (firstn 4 (images page)) ->
      exists img, Image_open f = Ok img /\
                  0 < fst (size img) /\ 0 < snd (size img)) ->
   exists thumb : Canvas,
     generate_thumbnail page = Ok thumb /\
     List.length (pasted thumb) = 4%nat).
Proof.
  intros Hn. split; [|split].
  - unfold Thumbnail.generate_thumbnail. cbn [images title description].
    now rewrite firstn_firstn.
  - intros thumb H.
    destruct (generate_thumbnail_pasted _ _ H) as (Hlen & Hnth).
    split; [rewrite Hlen; lia|].
    intros k img xy Hk.
    destruct (Hnth _ _ _ Hk) as (Hk4 & f & orig & Hf & Hopen & Hth & _).
    exists f, orig. repeat split; try assumption.
    rewrite nth_error_firstn.
    destruct (Nat.ltb_spec k 4); [exact Hf | lia].
  - intros Hall.
    destruct (generate_thumbnail_total page Hall) as [thumb H].
    exists thumb. split; [exact H|].
    destruct (generate_thumbnail_pasted _ _ H) as (Hlen & _).
    rewrite Hlen. lia.
Qed.

(** C8, as the code has it.  A pasted image fits the box of 140 by
    100, is at least 1 pixel each way and no larger than the decoded
    image; it has the size of the decoded image, or it spans the box
    one way and is, the other way, less than a pixel away from the
    length the aspect ratio asks for. *)
Theorem thumbnail_image_fits (page : Page UploadedFile) (thumb : Canvas)
    (k : nat) (img : Image) (xy : Z * Z) :
  generate_thumbnail page = Ok thumb ->
  nth_error (pasted thumb) k = Some (img, xy) ->
  exists f orig,
    nth_error (images page) k = Some f /\
    Image_open f = Ok orig /\
    forall w h : Z,
      size orig = (w, h) -> 0 < w -> 0 < h ->
      exists w' h' : Z,
        size img = (w', h') /\
        1 <= w' <= img_w /\ 1 <= h' <= img_h /\ w' <= w /\ h' <= h /\
        ((w', h') = (w, h) \/
         (h' = img_h /\ img_h * w / h - 1 < w' /\ w' < img_h * w / h + 1)%Q \/
         (w' = img_w /\ img_w * h / w - 1 < h' /\ h' < img_w * h / w + 1)%Q).
Proof.
  intros H Hk.
  destruct (generate_thumbnail_pasted _ _ H) as (_ & Hnth).
  destruct (Hnth _ _ _ Hk) as (_ & f & orig & Hf & Hopen & Hth & _).
  exists f, orig. split; [exact Hf|]. split; [exact Hopen|].
  intros w h Hsize Hw Hh.
  unfold thumbnail in Hth. cbn [convert_RGB size] in Hth. rewrite Hsize in Hth.
  destruct (thumbnail_size_fits w h img_w img_h Hw Hh eq_refl eq_refl)
    as (w' & h' & Hts & Hprops).
  rewrite Hts in Hth. cbn [bind] in Hth. injection Hth as <-.
  exists w', h'. split; [reflexivity | exact Hprops].
Qed.

Variables project_name username report_date : string.

(** C9, as the code has it.  An image that does not open makes
    [generate_pdf] raise, whichever page and position it has; it
    makes [generate_thumbnail] raise when it is one of the first 4
    images of the page. *)
Theorem undecodable_image_aborts (pages : list (Page UploadedFile))
    (page : Page UploadedFile) (f : UploadedFile) (e : exn) :
  In page pages -> In f (images page) -> Image_open f = Raise e ->
  (exists e', Pdf.generate_pdf _ Image_open project_name username report_date
                pages = Raise e') /\
  (In f (firstn 4 (images page)) ->
   exists e', generate_thumbnail page = Raise e').
Proof.
  intros Hpage Hf Hopen. split.
  - exact (generate_pdf_aborts _ _ _ _ _ _ _ _ _ Hpage Hf Hopen).
  - intros Hf4. rewrite generate_thumbnail_drawn.
    destruct (In_enumerate _ _ Hf4 0) as [i Hi].
    destruct (mapM_Raise_In (Thumbnail.paste_op _ Image_open) _ _ e Hi) as [e' ->].
    + unfold Thumbnail.paste_op. now rewrite Hopen.
    + cbn [bind]. eauto.
Qed.

End ThumbnailClaims.

(** * Further properties *)

(** ** Traversals, continued *)

Lemma enumerate_app {A : Type} (l1 l2 : list A) (s : Z) :
  enumerate s (l1 ++ l2) =
  enumerate s l1 ++ enumerate (s + Z.of_nat (List.length l1)) l2.
Proof.
  revert s; induction l1 as [|a l1 IH]; intros s; cbn [enumerate app List.length].
  - now rewrite Z.add_0_r.
  - rewrite IH. do 3 f_equal. lia.
Qed.

Lemma mapM_first_Raise {A B : Type} (f : A -> result B) (l1 l2 : list A)
    (a : A) (bs : list B) (e : exn) :
  mapM f l1 = Ok bs -> f a = Raise e -> mapM f (l1 ++ a :: l2) = Raise e.
Proof.
  revert bs; induction l1 as [|a1 l1 IH]; intros bs H Ha; cbn [mapM app] in *.
  - now rewrite Ha.
  - apply bind_Ok in H. destruct H as (b & Hb & H).
    apply bind_Ok in H. destruct H as (bs' & Hbs & _).
    rewrite Hb. cbn [bind]. now rewrite (IH _ Hbs Ha).
Qed.

Lemma mapM_Ok_In {A B : Type} (f : A -> result B) (l : list A) (bs : list B) (a : A) :
  mapM f l = Ok bs -> In a l -> exists b, In b bs /\ f a = Ok b.
Proof.
  intros H Hin. apply In_nth_error in Hin. destruct Hin as [k Hk].
  destruct (mapM_Ok_nth_error _ _ _ _ _ H Hk) as (b & Hb & Hf).
  exists b. split; [eapply nth_error_In; eassumption | exact Hf].
Qed.

Section PdfReturns.

Import Pdf.

Variable UploadedFile : Type.
Variable Image_open : UploadedFile -> result Image.
Variables project_name username report_date : string.

Local Abbreviation generate_pdf :=
  (generate_pdf UploadedFile Image_open project_name username report_date).
Local Abbreviation page_ops :=
  (page_ops UploadedFile Image_open project_name username report_date).
Local Abbreviation image_op := (image_op UploadedFile Image_open).

Local Abbreviation placeable := (placeable Image_open).

Lemma image_op_placeable (cols : Z) (img_w img_h : Q) (i : Z) (f : UploadedFile) :
  (0 < img_w)%Q -> (0 < img_h)%Q ->
  (exists op, image_op cols img_w img_h (i, f) = Ok op) <-> placeable f.
Proof.
  intros Hw Hh. split.
  - intros [op Hop]. apply image_op_Ok in Hop.
    destruct Hop as (img & p & Hopen & Hsave & Hplace & _).
    exists img. split; [exact Hopen|]. split; [exact Hsave|].
    destruct (size img) as [w_px h_px]. apply place_Ok in Hplace.
    destruct Hplace as (_ & _ & Hnz & _). cbn [snd].
    intros ->. apply Hnz. reflexivity.
  - intros (img & Hopen & Hsave & Hpx).
    unfold Pdf.image_op. rewrite Hopen. cbn [bind]. rewrite Hsave. cbn [bind].
    destruct (size img) as [w_px h_px]. cbn [snd] in Hpx.
    destruct (place_total cols img_w img_h i w_px h_px Hw Hh Hpx) as [p ->].
    cbn [bind]. eauto.
Qed.


(** X2. The first image that does not open decides the exception: when
    the pages before render and the images before it on its page are
    placeable, [generate_pdf] raises the exception of [Image.open]. *)
Theorem generate_pdf_first_error (before after : list (Page UploadedFile))
    (page : Page UploadedFile) (fs1 fs2 : list UploadedFile) (f : UploadedFile)
    (e : exn) :
  (exists doc, generate_pdf before = Ok doc) ->
  images page = fs1 ++ f :: fs2 ->
  (forall f', In f' fs1 -> placeable f') ->
  Image_open f = Raise e ->
  generate_pdf (before ++ page :: after) = Raise e.
Proof.
  intros [doc Hbefore] Himages Hfs1 Hopen.
  rewrite generate_pdf_pages in *.
  rewrite enumerate_app. cbn [enumerate].
  apply (mapM_first_Raise _ _ _ _ _ _ Hbefore).
  unfold Pdf.page_ops, page_images.
  destruct (cell_size (Z.of_nat (List.length (images page))))
    as (w & h & Hw & Hh & _).
  destruct (cell_size_pos _ _ _ Hw Hh) as [Hwpos Hhpos].
  rewrite Hw, Hh. cbn [bind].
  rewrite Himages at 2. rewrite enumerate_app. cbn [enumerate].
  destruct (mapM_all_Ok
              (image_op (cols (Z.of_nat (List.length (images page)))) w h)
              (enumerate 0 fs1)) as [imgs Himgs].
  { intros [i f'] Hin. apply In_enumerate_snd in Hin.
    apply (image_op_placeable _ w h i f' Hwpos Hhpos). auto. }
  rewrite (mapM_first_Raise _ _ _ _ _ e Himgs); [reflexivity|].
  unfold Pdf.image_op. now rewrite Hopen.
Qed.

End PdfReturns.

(** ** Where the images of a printed page are *)

Section PdfGeometry.

Import Pdf.

Lemma fit_width_le (img_w img_h a dw dh : Q) :
  (0 < img_h)%Q ->
  fit img_w img_h a (img_w / img_h) = Ok (dw, dh) -> (dw <= img_w)%Q.
Proof.
  intros Hh. unfold fit.
  destruct (Qgt_bool a (img_w / img_h)) eqn:E.
  - intros H. apply bind_Ok in H. destruct H as (q & _ & H).
    injection H as <- _. apply Qle_refl.
  - apply Qgt_bool_false in E. intros H. injection H as <- _.
    assert (Hbox : (img_w / img_h * img_h == img_w)%Q)
      by (apply Qdiv_mult_cancel, Qpos_nonzero, Hh).
    rewrite <- Hbox. rewrite (Qmult_comm img_h a).
    apply Qmult_le_compat_r; [exact E | apply Qlt_le_weak; exact Hh].
Qed.

(** The drawn rectangle lies inside its cell, whose corner is given
    by the index of the image. *)
Lemma place_within_cell (cols : Z) (img_w img_h : Q) (i : Z) (sz : Z * Z)
    (p : Placement) :
  (0 < img_w)%Q -> (0 < img_h)%Q ->
  place cols img_w img_h i sz = Ok p ->
  let cell_x := (x_offset + (img_w + 5) * (i mod cols)%Z)%Q in
  let cell_y := (y_offset + (img_h + 5) * (i / cols)%Z)%Q in
  (cell_x <= draw_x p /\ draw_x p + draw_w p <= cell_x + img_w /\
   cell_y <= draw_y p /\ draw_y p + draw_h p <= cell_y + img_h)%Q.
Proof.
  intros Hw Hh H. destruct sz as [w_px h_px].
  apply place_Ok in H. destruct H as (dw & dh & _ & _ & Hfit & ->).
  pose proof (fit_width_le _ _ _ _ _ Hh Hfit) as Hdw.
  pose proof (fit_height_le _ _ _ _ _ Hw Hh Hfit) as Hdh.
  cbn [x y draw_x draw_y draw_w draw_h]. cbv zeta.
  unfold gap. change (inject_Z 5) with 5%Q.
  assert (Hx : ((img_w - dw) / 2 == (1 # 2) * (img_w - dw))%Q) by field.
  assert (Hy : ((img_h - dh) / 2 == (1 # 2) * (img_h - dh))%Q) by field.
  rewrite Hx, Hy. repeat split; lra.
Qed.

Lemma inject_Z_le (a b : Z) : a <= b -> (inject_Z a <= inject_Z b)%Q.
Proof. intros H. rewrite <- Zle_Qle. exact H. Qed.

Lemma inject_Z_succ_le (a b : Z) : a + 1 <= b -> (inject_Z a + 1 <= inject_Z b)%Q.
Proof.
  intros H. apply inject_Z_le in H. rewrite inject_Z_plus in H. exact H.
Qed.

Variable UploadedFile : Type.
Variable Image_open : UploadedFile -> result Image.
Variables project_name username report_date : string.

Local Abbreviation generate_pdf :=
  (generate_pdf UploadedFile Image_open project_name username report_date).

(** The images of a rendered page, each inside its cell of the grid. *)
Lemma page_images_in_cells (pages : list (Page UploadedFile))
    (doc : list (list pdf_op)) (j : nat) (page : Page UploadedFile) :
  generate_pdf pages = Ok doc ->
  nth_error pages j = Some page ->
  let n := Z.of_nat (List.length (images page)) in
  exists ops (cellW cellH : Q),
    nth_error doc j = Some ops /\
    (cellW == if 1 <? n then 61 else 127)%Q /\
    (cellH == if 2 <? n then 85 # 2 else 90)%Q /\
    forall (i : nat) (x y w h : Q),
      nth_error (drawn_images ops) i = Some (x, y, w, h) ->
      (i < List.length (images page))%nat /\
      let cell_x := (x_offset + (cellW + 5) * (Z.of_nat i mod cols n)%Z)%Q in
      let cell_y := (y_offset + (cellH + 5) * (Z.of_nat i / cols n)%Z)%Q in
      (cell_x <= x /\ x + w <= cell_x + cellW /\
       cell_y <= y /\ y + h <= cell_y + cellH)%Q.
Proof.
  intros H Hj n.
  destruct (page_images_placed _ _ _ _ _ _ _ _ _ H Hj)
    as (ops & cellW & cellH & Hops & Hw & Hh & Hwpos & Hhpos & Hlen & Hnth).
  destruct (cell_size n) as (w' & h' & Hw' & Hh' & Hwv & Hhv).
  pose proof (eq_trans (eq_sym Hw) Hw') as E1. injection E1 as <-.
  pose proof (eq_trans (eq_sym Hh) Hh') as E2. injection E2 as <-.
  exists ops, cellW, cellH. split; [exact Hops|].
  split; [exact Hwv|]. split; [exact Hhv|].
  intros i x y w h Hr.
  assert (Hi : (i < List.length (images page))%nat)
    by (rewrite <- Hlen; apply nth_error_Some; congruence).
  split; [exact Hi|].
  destruct (Hnth _ _ Hr) as (f & img & p & _ & _ & Hplace & Hrp).
  injection Hrp as -> -> -> ->.
  exact (place_within_cell _ _ _ _ _ _ Hwpos Hhpos Hplace).
Qed.


(** X4. Two images of a page never overlap, however many images there
    are: they are in different cells of the grid, at least 5 apart. *)
Theorem images_apart (pages : list (Page UploadedFile))
    (doc : list (list pdf_op)) (j : nat) (page : Page UploadedFile) :
  generate_pdf pages = Ok doc ->
  nth_error pages j = Some page ->
  exists ops,
    nth_error doc j = Some ops /\
    forall (i i' : nat) (r r' : Q * Q * Q * Q),
      i <> i' ->
      nth_error (drawn_images ops) i = Some r ->
      nth_error (drawn_images ops) i' = Some r' ->
      rect_apart r r'.
Proof.
  intros H Hj.
  destruct (page_images_in_cells _ _ _ _ H Hj)
    as (ops & cellW & cellH & Hops & Hw & Hh & Hnth).
  exists ops. split; [exact Hops|].
  intros i i' [[[x y] w] h] [[[x' y'] w'] h'] Hne Hi Hi'.
  destruct (Hnth _ _ _ _ _ Hi) as (_ & Hx1 & Hx2 & Hy1 & Hy2).
  destruct (Hnth _ _ _ _ _ Hi') as (_ & Hx1' & Hx2' & Hy1' & Hy2').
  set (n := Z.of_nat (List.length (images page))) in *.
  assert (Hc : 0 < cols n) by (unfold cols; destruct (1 <? n); lia).
  pose proof (Z.div_mod (Z.of_nat i) (cols n) ltac:(lia)) as Hdm.
  pose proof (Z.div_mod (Z.of_nat i') (cols n) ltac:(lia)) as Hdm'.
  set (row := Z.of_nat i / cols n) in *. set (col := Z.of_nat i mod cols n) in *.
  set (row' := Z.of_nat i' / cols n) in *. set (col' := Z.of_nat i' mod cols n) in *.
  assert (Hcases : row + 1 <= row' \/ row' + 1 <= row \/
                   col + 1 <= col' \/ col' + 1 <= col).
  { destruct (Z.lt_trichotomy row row') as [?|[Er|?]]; [lia| |lia].
    destruct (Z.lt_trichotomy col col') as [?|[Ec|?]]; [lia| |lia].
    exfalso. apply Hne. apply Nat2Z.inj. rewrite Hdm, Hdm', Er, Ec. reflexivity. }
  unfold rect_apart.
  assert (Hwpos : (0 < cellW)%Q) by (rewrite Hw; destruct (1 <? n); reflexivity).
  assert (Hhpos : (0 < cellH)%Q) by (rewrite Hh; destruct (2 <? n); reflexivity).
  clear Hw Hh Hdm Hdm' Hnth Hi Hi' Hops H Hj.
  destruct Hcases as [Hr|[Hr|[Hr|Hr]]]; apply inject_Z_succ_le in Hr.
  - right; right; left.
    assert ((cellH + 5) * inject_Z row + (cellH + 5) <= (cellH + 5) * inject_Z row')%Q
      by nra.
    lra.
  - right; right; right.
    assert ((cellH + 5) * inject_Z row' + (cellH + 5) <= (cellH + 5) * inject_Z row)%Q
      by nra.
    lra.
  - left.
    assert ((cellW + 5) * inject_Z col + (cellW + 5) <= (cellW + 5) * inject_Z col')%Q
      by nra.
    lra.
  - right; left.
    assert ((cellW + 5) * inject_Z col' + (cellW + 5) <= (cellW + 5) * inject_Z col)%Q
      by nra.
    lra.
Qed.

End PdfGeometry.

(** ** The vertical layout of a printed page *)

Section PdfLayout.

Import Pdf.

Variables page_h t_margin : Q.

Lemma cells_from_images (imgs rest : list pdf_op) (cy : Q) :
  Forall (fun op => exists x y w h, op = Img x y w h) imgs ->
  cells_from page_h cy (imgs ++ rest) = cells_from page_h cy rest.
Proof.
  induction 1 as [|op imgs (x & y & w & h & ->) _ IH]; [reflexivity | exact IH].
Qed.

Lemma cells_from_rows (lines : list string) :
  forall (cy : Q) (y0 : Z) (rest : list pdf_op),
    cells_from page_h cy (map row_op lines ++ SetY y0 :: rest) =
    row_cells cy lines ++ cells_from page_h (set_cursor_y page_h y0) rest.
Proof.
  induction lines as [|line lines IH]; intros cy y0 rest; [reflexivity|].
  cbn [map app cells_from row_op row_cells Z.ltb Z.compare]. now rewrite IH.
Qed.

Lemma row_cells_rows_at (lines : list string) :
  forall (cy y0 : Q) (s : Z),
    (cy == y0 + 10 * inject_Z s)%Q ->
    same_cells (row_cells cy lines)
      (map (fun '(j, line) => ((y0 + 10 * inject_Z j)%Q, 10, line))
         (enumerate s lines)).
Proof.
  induction lines as [|line lines IH]; intros cy y0 s Hcy;
    cbn [row_cells enumerate map]; constructor.
  - auto.
  - apply IH. rewrite Hcy, inject_Z_plus.
    change (inject_Z 10) with 10%Q. change (inject_Z 1) with 1%Q. ring.
Qed.

Lemma same_cells_refl (l : list (Q * Z * string)) : same_cells l l.
Proof.
  induction l as [|[[y h] txt] l IH]; constructor; [|exact IH].
  repeat split.
Qed.

Lemma same_cells_app (l1 l2 m1 m2 : list (Q * Z * string)) :
  same_cells l1 m1 -> same_cells l2 m2 -> same_cells (l1 ++ l2) (m1 ++ m2).
Proof. apply Forall2_app. Qed.

Variable UploadedFile : Type.
Variable Image_open : UploadedFile -> result Image.
Variables project_name username report_date : string.

Local Abbreviation generate_pdf :=
  (generate_pdf UploadedFile Image_open project_name username report_date).
Local Abbreviation image_op := (image_op UploadedFile Image_open).

Lemma image_ops_are_images (cols : Z) (img_w img_h : Q) (l : list (Z * UploadedFile)) :
  forall imgs : list pdf_op,
    mapM (image_op cols img_w img_h) l = Ok imgs ->
    Forall (fun op => exists x y w h, op = Img x y w h) imgs.
Proof.
  induction l as [|[i f] l IH]; intros imgs H; cbn [mapM] in H.
  - inversion H. constructor.
  - apply bind_Ok in H. destruct H as (op & Hop & H).
    apply bind_Ok in H. destruct H as (imgs' & Himgs & H).
    inversion H; subst imgs. constructor; [|auto].
    apply image_op_Ok in Hop. destruct Hop as (img & p & _ & _ & _ & ->). eauto.
Qed.

(** The cells of a rendered page, with the cursor position of each. *)
Lemma page_cells_eq (pages : list (Page UploadedFile))
    (doc : list (list pdf_op)) (j : nat) (page : Page UploadedFile) :
  generate_pdf pages = Ok doc ->
  nth_error pages j = Some page ->
  exists ops,
    nth_error doc j = Some ops /\
    description_rows ops = pad (splitlines (description page)) /\
    page_cells page_h t_margin ops =
    (t_margin, 10, project_name)
      :: (inject_Z 125, 10, " Subject: " ++ title page)%string
      :: ((inject_Z 125 + inject_Z 10)%Q, 10, "Description:"%string)
      :: row_cells (inject_Z 125 + inject_Z 10 + inject_Z 10)%Q
           (pad (splitlines (description page)))
      ++ [ ((page_h + inject_Z (-30))%Q, 10, "Created by: " ++ username)%string;
           ((page_h + inject_Z (-30) + inject_Z 10)%Q, 10,
            "Date: " ++ report_date)%string;
           ((page_h + inject_Z (-10))%Q, 10,
            "Page " ++ str (Z.of_nat j + 1))%string ].
Proof.
  intros H Hj.
  destruct (generate_pdf_nth _ _ _ _ _ _ _ _ _ H Hj) as (ops & Hops & Hpage).
  exists ops. split; [exact Hops|].
  split; [exact (page_description_rows _ _ _ _ _ _ _ _ Hpage)|].
  apply page_ops_Ok in Hpage.
  destruct Hpage as (w & h & imgs & _ & _ & Himgs & ->).
  apply image_ops_are_images in Himgs.
  unfold page_cells, header_ops.
  cbn [app cells_from Z.ltb Z.compare].
  rewrite (cells_from_images _ _ _ Himgs).
  unfold subject_ops. cbn [app cells_from Z.ltb Z.compare].
  unfold footer_ops. rewrite cells_from_rows.
  reflexivity.
Qed.

End PdfLayout.

Lemma row_cells_length (lines : list string) (cy : Q) :
  List.length (row_cells cy lines) = List.length lines.
Proof.
  revert cy; induction lines as [|line lines IH]; intros cy; cbn [row_cells List.length];
    [reflexivity | now rewrite IH].
Qed.

Lemma row_cells_nth (lines : list string) :
  forall (cy : Q) (k : nat) (y : Q) (h : Z) (txt : string),
    nth_error (row_cells cy lines) k = Some (y, h, txt) ->
    h = 10 /\ nth_error lines k = Some txt /\
    (y == cy + 10 * inject_Z (Z.of_nat k))%Q.
Proof.
  induction lines as [|line lines IH]; intros cy k y h txt Hk.
  - destruct k; discriminate.
  - destruct k as [|k]; cbn [row_cells nth_error] in Hk.
    + injection Hk as <- <- <-. repeat split.
      change (inject_Z (Z.of_nat 0)) with 0%Q. ring.
    + destruct (IH _ _ _ _ _ Hk) as (Hh & Hline & Hy).
      repeat split; [exact Hh | exact Hline |].
      rewrite Hy, Nat2Z.inj_succ. unfold Z.succ. rewrite inject_Z_plus.
      change (inject_Z 10) with 10%Q. change (inject_Z 1) with 1%Q. ring.
Qed.

Section PdfFooter.

Import Pdf.

Variables page_h t_margin : Q.
Variable UploadedFile : Type.
Variable Image_open : UploadedFile -> result Image.
Variables project_name username report_date : string.

Local Abbreviation generate_pdf :=
  (generate_pdf UploadedFile Image_open project_name username report_date).

(** X5. The cells of a page from top to bottom: the project name at the
    top margin, the subject bar at 125, the "Description:" label at
    135, the description rows from 145 in steps of 10, then the author
    at 30, the date at 20 and the page number at 10 from the bottom of
    the page; every cell is 10 high. *)
Theorem page_layout (pages : list (Page UploadedFile))
    (doc : list (list pdf_op)) (j : nat) (page : Page UploadedFile) :
  generate_pdf pages = Ok doc ->
  nth_error pages j = Some page ->
  exists ops,
    nth_error doc j = Some ops /\
    same_cells (page_cells page_h t_margin ops)
      ((t_margin, 10, project_name)
         :: (125%Q, 10, " Subject: " ++ title page)%string
         :: (135%Q, 10, "Description:"%string)
         :: rows_at 145 (description_rows ops)
         ++ [ ((page_h - 30)%Q, 10, "Created by: " ++ username)%string;
              ((page_h - 20)%Q, 10, "Date: " ++ report_date)%string;
              ((page_h - 10)%Q, 10, "Page " ++ str (Z.of_nat j + 1))%string ]).
Proof.
  intros H Hj.
  destruct (page_cells_eq page_h t_margin _ _ _ _ _ _ _ _ _ H Hj)
    as (ops & Hops & Hrows & Hcells).
  exists ops. split; [exact Hops|]. rewrite Hcells, Hrows.
  constructor; [repeat split; reflexivity|].
  constructor; [repeat split; reflexivity|].
  constructor; [repeat split; reflexivity|].
  apply Forall2_app.
  - apply row_cells_rows_at. reflexivity.
  - constructor; [repeat split; reflexivity|].
    constructor; [repeat split|].
    { change (inject_Z (-30)) with (-30 # 1)%Q. change (inject_Z 10) with 10%Q. ring. }
    constructor; [repeat split; reflexivity | constructor].
Qed.

(** X6. With a description of at most 12 lines, on a page at least 297 mm
    high, every description row ends at or above the top of the
    author line. *)
Theorem rows_clear_of_footer (pages : list (Page UploadedFile))
    (doc : list (list pdf_op)) (j : nat) (page : Page UploadedFile) :
  generate_pdf pages = Ok doc ->
  nth_error pages j = Some page ->
  (List.length (splitlines (description page)) <= 12)%nat ->
  (297 <= page_h)%Q ->
  exists ops (y_author : Q),
    nth_error doc j = Some ops /\
    nth_error (page_cells page_h t_margin ops)
      (3 + List.length (description_rows ops))
    = Some (y_author, 10, ("Created by: " ++ username)%string) /\
    forall (k : nat) (y : Q) (h : Z) (txt : string),
      (3 <= k < 3 + List.length (description_rows ops))%nat ->
      nth_error (page_cells page_h t_margin ops) k = Some (y, h, txt) ->
      (y + inject_Z h <= y_author)%Q.
Proof.
  intros H Hj Hk Hh.
  destruct (page_cells_eq page_h t_margin _ _ _ _ _ _ _ _ _ H Hj)
    as (ops & Hops & Hrows & Hcells).
  exists ops, (page_h + inject_Z (-30))%Q. split; [exact Hops|].
  rewrite Hcells, Hrows.
  set (rows := pad (splitlines (description page))).
  assert (HR : (List.length rows <= 12)%nat).
  { subst rows. rewrite pad_length. lia. }
  split.
  - cbn [Nat.add nth_error].
    rewrite nth_error_app2 by (rewrite row_cells_length; lia).
    rewrite row_cells_length, Nat.sub_diag. reflexivity.
  - intros k y h txt [Hk3 HkR] Hnth.
    destruct k as [|[|[|k]]]; try lia. cbn [nth_error] in Hnth.
    rewrite nth_error_app1 in Hnth by (rewrite row_cells_length; lia).
    apply row_cells_nth in Hnth. destruct Hnth as (-> & _ & Hy).
    assert (Hkq : (inject_Z (Z.of_nat k) <= 11)%Q).
    { change 11%Q with (inject_Z 11). rewrite <- Zle_Qle. lia. }
    rewrite Hy. change (inject_Z 125) with 125%Q. change (inject_Z 10) with 10%Q.
    change (inject_Z (-30)) with (-30 # 1)%Q. lra.
Qed.

(** X7. With a description of 13 lines or more, on a page between 295
    and 305 mm high, the row of the 13th line starts above the top of
    the author line and ends below it: the two overlap. *)
Theorem thirteenth_row_on_footer (pages : list (Page UploadedFile))
    (doc : list (list pdf_op)) (j : nat) (page : Page UploadedFile) :
  generate_pdf pages = Ok doc ->
  nth_error pages j = Some page ->
  (13 <= List.length (splitlines (description page)))%nat ->
  (295 < page_h)%Q -> (page_h < 305)%Q ->
  exists ops (y_author y_row : Q) (line : string),
    nth_error doc j = Some ops /\
    nth_error (page_cells page_h t_margin ops)
      (3 + List.length (description_rows ops))
    = Some (y_author, 10, ("Created by: " ++ username)%string) /\
    nth_error (splitlines (description page)) 12 = Some line /\
    nth_error (page_cells page_h t_margin ops) 15 = Some (y_row, 10, line) /\
    (y_row < y_author /\ y_author < y_row + 10)%Q.
Proof.
  intros H Hj Hk Hlo Hhi.
  destruct (page_cells_eq page_h t_margin _ _ _ _ _ _ _ _ _ H Hj)
    as (ops & Hops & Hrows & Hcells).
  assert (Hpad : pad (splitlines (description page)) = splitlines (description page)).
  { rewrite pad_repeat.
    replace (10 - List.length (splitlines (description page)))%nat with 0%nat by lia.
    apply app_nil_r. }
  rewrite Hpad in Hrows, Hcells.
  destruct (nth_error (row_cells (inject_Z 125 + inject_Z 10 + inject_Z 10)
                         (splitlines (description page))) 12)
    as [[[y_row h] line]|] eqn:Hrow.
  2:{ apply nth_error_None in Hrow. rewrite row_cells_length in Hrow. lia. }
  pose proof (row_cells_nth _ _ _ _ _ _ Hrow) as (-> & Hline & Hy).
  exists ops, (page_h + inject_Z (-30))%Q, y_row, line.
  rewrite Hcells, Hrows.
  split; [exact Hops|]. split.
  - cbn [Nat.add nth_error].
    rewrite nth_error_app2 by (rewrite row_cells_length; lia).
    rewrite row_cells_length, Nat.sub_diag. reflexivity.
  - split; [exact Hline|]. split.
    + change (nth_error (?c0 :: ?c1 :: ?c2 :: ?l) 15) with (nth_error l 12).
      rewrite nth_error_app1 by (rewrite row_cells_length; lia). exact Hrow.
    + rewrite Hy. change (inject_Z (Z.of_nat 12)) with 12%Q.
      change (inject_Z 125) with 125%Q. change (inject_Z 10) with 10%Q.
      change (inject_Z (-30)) with (-30 # 1)%Q. split; lra.
Qed.

End PdfFooter.

(** ** The preview, continued *)

Section ThumbnailMore.

Import Thumbnail.

Variable UploadedFile : Type.
Variable Image_open : UploadedFile -> result Image.

Local Abbreviation generate_thumbnail :=
  (generate_thumbnail UploadedFile Image_open).
Local Abbreviation paste_op := (paste_op UploadedFile Image_open).

Lemma paste_ops_no_text (l : list (Z * UploadedFile)) :
  forall ps : list canvas_op,
    mapM paste_op l = Ok ps ->
    flat_map (fun op => match op with
                        | Text xy s => [(xy, s)]
                        | Paste _ _ => []
                        end) ps = [].
Proof.
  induction l as [|[i f] l IH]; intros ps H; cbn [mapM] in H.
  - now inversion H.
  - apply bind_Ok in H. destruct H as (op & Hop & H).
    apply bind_Ok in H. destruct H as (ps' & Hps & H).
    inversion H; subst ps.
    apply paste_op_Ok in Hop. destruct Hop as (orig & img & _ & _ & ->).
    cbn [flat_map app]. auto.
Qed.

Lemma line_ops_texts (l : list (Z * string)) :
  flat_map (fun op => match op with
                      | Text xy s => [(xy, s)]
                      | Paste _ _ => []
                      end) (map line_op l)
  = map (fun '(i, line) => ((10, desc_start + i * 20), line)) l.
Proof.
  induction l as [|[i line] l IH]; [reflexivity|].
  cbn [map flat_map app line_op]. now rewrite IH.
Qed.

(** X9. The canvas of the preview is 600 by 400, and its texts are the
    subject and the first 6 lines of the description, line [i] at
    [(10, 220 + 20 i)]; further lines are not drawn. *)
Theorem thumbnail_texts (page : Page UploadedFile) (thumb : Canvas) :
  generate_thumbnail page = Ok thumb ->
  canvas_size thumb = (600, 400) /\
  canvas_texts thumb =
  ((10, 10), ("Subject: " ++ title page)%string)
    :: map (fun '(i, line) => ((10, 220 + i * 20), line))
         (enumerate 0 (firstn 6 (splitlines (description page)))) /\
  List.length (canvas_texts thumb) =
  S (Nat.min 6 (List.length (splitlines (description page)))).
Proof.
  rewrite generate_thumbnail_drawn. intros H.
  apply bind_Ok in H. destruct H as (ps & Hps & H).
  inversion H; subst thumb. clear H.
  split; [reflexivity|].
  match goal with
  | |- canvas_texts ?c = ?texts /\ _ =>
      assert (Htexts : canvas_texts c = texts)
  end.
  { unfold canvas_texts. cbn [drawn flat_map app].
    rewrite flat_map_app, (paste_ops_no_text _ _ Hps), line_ops_texts.
    reflexivity. }
  split; [exact Htexts|].
  rewrite Htexts. cbn [List.length].
  now rewrite length_map, enumerate_length, length_firstn.
Qed.

(** X10. When the files that open are images of positive width and height,
    the preview is returned exactly when each of the first 4 files of
    the page opens. *)
Theorem thumbnail_returns_iff (page : Page UploadedFile) :
  (forall f img, In f (firstn 4 (images page)) -> Image_open f = Ok img ->
                 0 < fst (size img) /\ 0 < snd (size img)) ->
  (exists thumb, generate_thumbnail page = Ok thumb) <->
  (forall f, In f (firstn 4 (images page)) -> exists img, Image_open f = Ok img).
Proof.
  intros Hpos. rewrite generate_thumbnail_drawn. split.
  - intros [thumb H] f Hf.
    apply bind_Ok in H. destruct H as (ps & Hps & _).
    destruct (In_enumerate _ _ Hf 0) as [i Hi].
    destruct (mapM_Ok_In _ _ _ _ Hps Hi) as (op & _ & Hop).
    apply paste_op_Ok in Hop. destruct Hop as (orig & _ & Hopen & _). eauto.
  - intros Hall. rewrite <- generate_thumbnail_drawn.
    apply generate_thumbnail_total. intros f Hf.
    destruct (Hall f Hf) as [img Hopen]. exists img.
    split; [exact Hopen | exact (Hpos f img Hf Hopen)].
Qed.

(** The size of a pasted image, when the decoded image has positive
    width and height: within 140 by 100. *)
Lemma pasted_size_bounds (orig img : Image) :
  0 < fst (size orig) -> 0 < snd (size orig) ->
  thumbnail (convert_RGB orig) (img_w, img_h) = Ok img ->
  1 <= fst (size img) <= img_w /\ 1 <= snd (size img) <= img_h.
Proof.
  intros Hw Hh H. unfold thumbnail in H. cbn [convert_RGB size] in H.
  destruct (size orig) as [w h]. cbn [fst snd] in Hw, Hh.
  destruct (thumbnail_size_fits w h img_w img_h Hw Hh eq_refl eq_refl)
    as (w' & h' & Hts & Hw' & Hh' & _).
  rewrite Hts in H. cbn [bind] in H. injection H as <-.
  cbn [size fst snd]. auto.
Qed.

Lemma Qle_inject_sum (a b c d : Z) :
  a + b <= c + d -> (inject_Z a + inject_Z b <= inject_Z c + inject_Z d)%Q.
Proof. intros H. rewrite <- !inject_Z_plus, <- Zle_Qle. exact H. Qed.

(** X11. When the decoded images have positive width and height, the
    pasted images lie inside the canvas and no two of them overlap. *)
Theorem thumbnail_images_apart (page : Page UploadedFile) (thumb : Canvas) :
  generate_thumbnail page = Ok thumb ->
  (forall f img, In f (firstn 4 (images page)) -> Image_open f = Ok img ->
                 0 < fst (size img) /\ 0 < snd (size img)) ->
  (forall e, In e (pasted thumb) ->
     rect_inside (pasted_rect e)
       (0%Q, 0%Q, inject_Z (fst (canvas_size thumb)),
        inject_Z (snd (canvas_size thumb)))) /\
  (forall (k k' : nat) (e e' : Image * (Z * Z)),
     k <> k' ->
     nth_error (pasted thumb) k = Some e ->
     nth_error (pasted thumb) k' = Some e' ->
     rect_apart (pasted_rect e) (pasted_rect e')).
Proof.
  intros H Hpos.
  destruct (generate_thumbnail_pasted _ _ _ _ H) as (_ & Hnth).
  assert (Hsize : canvas_size thumb = (600, 400)).
  { rewrite generate_thumbnail_drawn in H.
    apply bind_Ok in H. destruct H as (ps & _ & H). now inversion H. }
  assert (Hcell : forall (k : nat) (img : Image) (x y : Z),
             nth_error (pasted thumb) k = Some (img, (x, y)) ->
             (k < 4)%nat /\
             x = start_x + cell_col (Z.of_nat k) * (img_w + gap) /\
             y = start_y + cell_row (Z.of_nat k) * (img_h + gap) /\
             1 <= fst (size img) <= img_w /\ 1 <= snd (size img) <= img_h).
  { intros k img x y Hk.
    destruct (Hnth _ _ _ Hk) as (Hk4 & f & orig & Hf & Hopen & Hth & Hxy).
    injection Hxy as -> ->.
    assert (Hin : In f (firstn 4 (images page))).
    { apply (nth_error_In _ k). rewrite nth_error_firstn.
      destruct (Nat.ltb_spec k 4); [exact Hf | lia]. }
    destruct (Hpos f orig Hin Hopen) as [Hw Hh].
    destruct (pasted_size_bounds _ _ Hw Hh Hth) as [Hw' Hh'].
    repeat split; try lia. }
  split.
  - intros [img [x y]] He. apply In_nth_error in He. destruct He as [k Hk].
    destruct (Hcell _ _ _ _ Hk) as (Hk4 & -> & -> & Hw & Hh).
    rewrite Hsize. unfold pasted_rect, rect_inside. cbn [fst snd].
    unfold img_w, img_h, start_x, start_y, gap, cell_col, cell_row in *.
    change 0%Q with (inject_Z 0).
    assert (k = 0 \/ k = 1 \/ k = 2 \/ k = 3)%nat as [->|[->|[->| ->]]] by lia;
      cbn -[inject_Z];
      (split; [rewrite <- Zle_Qle; lia|]);
      (split; [apply Qle_inject_sum; lia|]);
      (split; [rewrite <- Zle_Qle; lia|]);
      apply Qle_inject_sum; lia.
  - intros k k' [img [x y]] [img' [x' y']] Hne Hk Hk'.
    destruct (Hcell _ _ _ _ Hk) as (Hk4 & -> & -> & Hw & Hh).
    destruct (Hcell _ _ _ _ Hk') as (Hk4' & -> & -> & Hw' & Hh').
    unfold pasted_rect, rect_apart.
    unfold img_w, img_h, start_x, start_y, gap, cell_col, cell_row in *.
    assert (Hsum : forall a b c : Z, a + b <= c -> (inject_Z a + inject_Z b <= inject_Z c)%Q).
    { intros a b c Habc. rewrite <- inject_Z_plus, <- Zle_Qle. exact Habc. }
    assert (k = 0 \/ k = 1 \/ k = 2 \/ k = 3)%nat as [->|[->|[->| ->]]] by lia;
      assert (k' = 0 \/ k' = 1 \/ k' = 2 \/ k' = 3)%nat as [->|[->|[->| ->]]] by lia;
      try congruence; cbn -[inject_Z];
      first [ left; apply Hsum; lia
            | right; left; apply Hsum; lia
            | right; right; left; apply Hsum; lia
            | right; right; right; apply Hsum; lia ].
Qed.

End ThumbnailMore.

(** ** The page list *)

Lemma Forall_pop {A : Type} (P : A -> Prop) (l : list A) (i : nat) :
  Forall P l -> Forall P (App.pop l i).
Proof.
  intros H. unfold App.pop. apply Forall_app. split.
  - rewrite <- (firstn_skipn i l) in H. apply Forall_app in H. tauto.
  - rewrite <- (firstn_skipn (S i) l) in H. apply Forall_app in H. tauto.
Qed.

Lemma Forall_update {A : Type} (P : A -> Prop) (f : A -> A) (l : list A) :
  (forall a, P a -> P (f a)) ->
  forall i : nat, Forall P l -> Forall P (App.update l i f).
Proof.
  intros Hf. induction l as [|a l IH]; intros i H; [constructor|].
  inversion H; subst. destruct i; cbn [App.update]; constructor; auto.
Qed.

Lemma update_length {A : Type} (f : A -> A) (l : list A) :
  forall i : nat, List.length (App.update l i f) = List.length l.
Proof.
  induction l as [|a l IH]; intros [|i]; cbn [App.update List.length]; auto.
Qed.

Lemma update_nth_error {A : Type} (f : A -> A) (l : list A) :
  forall i k : nat,
    nth_error (App.update l i f) k =
    if Nat.eqb k i then option_map f (nth_error l k) else nth_error l k.
Proof.
  induction l as [|a l IH]; intros i k.
  - cbn [App.update]. destruct k; cbn [nth_error]; destruct (Nat.eqb _ i); reflexivity.
  - destruct i as [|i], k as [|k]; cbn [App.update nth_error Nat.eqb option_map];
      try reflexivity. apply IH.
Qed.

Lemma pop_nth_error {A : Type} (l : list A) (i k : nat) :
  (i < List.length l)%nat ->
  nth_error (App.pop l i) k =
  if (k <? i)%nat then nth_error l k else nth_error l (S k).
Proof.
  intros Hi. unfold App.pop.
  destruct (Nat.ltb_spec k i) as [Hlt|Hge].
  - rewrite nth_error_app1 by (rewrite length_firstn; lia).
    rewrite nth_error_firstn.
    destruct (Nat.ltb_spec k i); [reflexivity | lia].
  - rewrite nth_error_app2 by (rewrite length_firstn; lia).
    rewrite length_firstn, nth_error_skipn. f_equal. lia.
Qed.

Lemma pop_length {A : Type} (l : list A) (i : nat) :
  (i < List.length l)%nat -> S (List.length (App.pop l i)) = List.length l.
Proof.
  intros Hi. unfold App.pop. rewrite length_app, length_firstn, length_skipn. lia.
Qed.

Section AppButtons.

Import App.

Variable UploadedFile : Type.
Variable Image_open : UploadedFile -> result Image.

Local Abbreviation Session := (Session UploadedFile).
Local Abbreviation click := (click UploadedFile).

(** A preview that raises ends every run that has to make it. *)
Lemma previews_Raise (s : Session) (j n : nat) (page : Page UploadedFile)
    (e : exn) :
  nth_error (pages _ s) j = Some page ->
  Thumbnail.generate_thumbnail _ Image_open page = Raise e ->
  (j < n)%nat ->
  exists e', previews _ Image_open s n = Raise e'.
Proof.
  intros Hj He Hn. unfold previews.
  apply (mapM_Raise_In _ _ page e); [|exact He].
  apply (nth_error_In _ j). rewrite nth_error_firstn.
  destruct (Nat.ltb_spec j n); [exact Hj | lia].
Qed.

Lemma on_click_well_formed (s : Session) (c : click) :
  Forall well_formed (pages _ s) -> checked_click c ->
  Forall well_formed (pages _ (on_click _ Image_open s c)).
Proof.
  intros Hs Hc. destruct c as [imgs t d|i|i|i t d imgs|i]; cbn [on_click].
  - unfold add_button.
    destruct (Z.leb_spec 1 (Z.of_nat (List.length imgs)));
      destruct (Z.leb_spec (Z.of_nat (List.length imgs)) 4);
      cbn [andb negb fst]; try exact Hs.
    destruct (truthy (strip d)) eqn:Hd; cbn [negb fst pages]; [|exact Hs].
    apply Forall_app. split; [exact Hs|].
    constructor; [|constructor].
    split; [cbn [images]; lia | exact Hd].
  - unfold edit_button. destruct (previews _ _ s (S i)); [|exact Hs].
    destruct (nth_error _ i); exact Hs.
  - unfold delete_button. destruct (previews _ _ s _); [|exact Hs].
    destruct (nth_error _ i); cbn [fst pages]; [|exact Hs].
    apply Forall_pop. exact Hs.
  - unfold save_button. destruct (previews _ _ s (S i)); [|exact Hs].
    destruct (edit_index _ s) as [j|]; [|exact Hs].
    destruct (nth_error _ i); [|exact Hs].
    destruct (Nat.eqb j i); cbn [fst pages]; [|exact Hs].
    destruct Hc as [Hn Hd].
    apply Forall_update; [|exact Hs].
    intros page [Hp _]. split; [|exact Hd].
    destruct imgs as [|f imgs]; cbn [images]; [exact Hp|].
    cbn [List.length] in *. lia.
  - unfold cancel_button. destruct (previews _ _ s (S i)); [|exact Hs].
    destruct (edit_index _ s) as [j|]; [|exact Hs].
    destruct (Nat.eqb j i); exact Hs.
Qed.

(** X14. Starting from a session whose pages are all as "Add Page" accepts
    them, they stay so after any sequence of clicks in which "Save
    Changes" is given at most 4 files and a description that is not
    blank; what "Add Page" is given does not matter. *)
Theorem clicks_keep_pages_well_formed (s : Session) (cs : list click) :
  Forall well_formed (pages _ s) ->
  Forall checked_click cs ->
  Forall well_formed (pages _ (after_clicks _ Image_open s cs)).
Proof.
  unfold after_clicks. revert s.
  induction cs as [|c cs IH]; intros s Hs Hcs; cbn [fold_left]; [exact Hs|].
  inversion Hcs; subst. apply IH; [|assumption].
  apply on_click_well_formed; assumption.
Qed.

(** X15. "Save Changes" stores what it is given without a check: when the
    previews up to the page being edited are made, that page gets the
    new title and description and, when files were uploaded, exactly
    those files, however many; no other page changes, and the edit
    form is closed. *)
Theorem save_button_stores_unchecked (s : Session) (i : nat)
    (page : Page UploadedFile) (thumbs : list Thumbnail.Canvas)
    (edit_title edit_description : string)
    (edit_images : list UploadedFile) :
  previews _ Image_open s (S i) = Ok thumbs ->
  edit_index _ s = Some i ->
  nth_error (pages _ s) i = Some page ->
  let s' := fst (save_button _ Image_open s i edit_title edit_description
                   edit_images) in
  nth_error (pages _ s') i =
  Some {| images := match edit_images with
                    | [] => images page
                    | _ :: _ => edit_images
                    end;
          title := edit_title;
          description := edit_description |} /\
  (forall k, k <> i -> nth_error (pages _ s') k = nth_error (pages _ s) k) /\
  List.length (pages _ s') = List.length (pages _ s) /\
  edit_index _ s' = None.
Proof.
  intros Hp He Hi. unfold save_button. rewrite Hp, He, Hi, Nat.eqb_refl.
  cbn [fst pages edit_index]. repeat split.
  - rewrite update_nth_error, Nat.eqb_refl, Hi. reflexivity.
  - intros k Hk. rewrite update_nth_error.
    destruct (Nat.eqb_spec k i); [contradiction | reflexivity].
  - apply update_length.
Qed.

(** X16. "Delete" leaves the edit index as it is: after deleting a page at or
    above the page being edited, the edit form is on the page that
    came next in the list. *)
Theorem delete_button_shifts_edit (s : Session) (i j : nat)
    (thumbs : list Thumbnail.Canvas) :
  previews _ Image_open s (List.length (pages _ s)) = Ok thumbs ->
  (i < List.length (pages _ s))%nat ->
  edit_index _ s = Some j ->
  (i <= j)%nat ->
  let s' := fst (delete_button _ Image_open s i) in
  S (List.length (pages _ s')) = List.length (pages _ s) /\
  edit_index _ s' = Some j /\
  nth_error (pages _ s') j = nth_error (pages _ s) (S j) /\
  (forall k, (k < i)%nat -> nth_error (pages _ s') k = nth_error (pages _ s) k).
Proof.
  intros Hp Hi He Hij. unfold delete_button. rewrite Hp.
  destruct (nth_error (pages _ s) i) eqn:Hn;
    [|apply nth_error_None in Hn; lia].
  cbn [fst pages edit_index]. repeat split.
  - apply pop_length. exact Hi.
  - exact He.
  - rewrite pop_nth_error by exact Hi.
    destruct (Nat.ltb_spec j i); [lia | reflexivity].
  - intros k Hk. rewrite pop_nth_error by exact Hi.
    destruct (Nat.ltb_spec k i); [reflexivity | lia].
Qed.

Lemma on_click_broken_page (s : Session) (j : nat) (page : Page UploadedFile)
    (e : exn) (c : click) :
  nth_error (pages _ s) j = Some page ->
  Thumbnail.generate_thumbnail _ Image_open page = Raise e ->
  nth_error (pages _ (on_click _ Image_open s c)) j = Some page.
Proof.
  intros Hj He.
  assert (Hlen : (j < List.length (pages _ s))%nat)
    by (apply nth_error_Some; congruence).
  destruct c as [imgs t d|i|i|i t d imgs|i]; cbn [on_click].
  - unfold add_button.
    destruct (negb _); [exact Hj|].
    destruct (negb _); [exact Hj|].
    cbn [fst pages]. rewrite nth_error_app1 by exact Hlen. exact Hj.
  - unfold edit_button. destruct (previews _ _ s (S i)); [|exact Hj].
    destruct (nth_error _ i); exact Hj.
  - unfold delete_button.
    destruct (previews_Raise s j _ page e Hj He Hlen) as [e' ->]. exact Hj.
  - unfold save_button.
    destruct (previews _ _ s (S i)) as [thumbs|e'] eqn:Hp; [|exact Hj].
    assert (Hne : i <> j).
    { intros ->.
      destruct (previews_Raise s j (S j) page e Hj He (Nat.lt_succ_diag_r j))
        as [e' He'].
      congruence. }
    destruct (edit_index _ s) as [j'|]; [|exact Hj].
    destruct (nth_error _ i); [|exact Hj].
    destruct (Nat.eqb j' i); cbn [fst pages]; [|exact Hj].
    rewrite update_nth_error.
    destruct (Nat.eqb_spec j i); [congruence | exact Hj].
  - unfold cancel_button. destruct (previews _ _ s (S i)); [|exact Hj].
    destruct (edit_index _ s) as [j'|]; [|exact Hj].
    destruct (Nat.eqb j' i); exact Hj.
Qed.

(** X17. A page whose preview raises stays where it is, whatever is
    clicked: its own buttons are not reached, "Delete" of any page
    removes nothing, as the loop does not end, and no report is made. *)
Theorem broken_page_stays (s : Session) (j : nat) (page : Page UploadedFile)
    (e : exn) (cs : list click) (project_name username report_date : string) :
  nth_error (pages _ s) j = Some page ->
  Thumbnail.generate_thumbnail _ Image_open page = Raise e ->
  let s' := after_clicks _ Image_open s cs in
  nth_error (pages _ s') j = Some page /\
  (forall i, fst (delete_button _ Image_open s' i) = s') /\
  edit_button _ Image_open s' j = s' /\
  exists e',
    generate_button _ Image_open s' project_name username report_date = Raise e'.
Proof.
  intros Hj He. cbv zeta.
  assert (Hj' : nth_error (pages _ (after_clicks _ Image_open s cs)) j = Some page).
  { unfold after_clicks. revert s Hj.
    induction cs as [|c cs IH]; intros s Hj; cbn [fold_left]; [exact Hj|].
    apply IH. apply (on_click_broken_page s j page e c Hj He). }
  set (s' := after_clicks _ Image_open s cs) in *.
  assert (Hlen : (j < List.length (pages _ s'))%nat)
    by (apply nth_error_Some; congruence).
  destruct (previews_Raise s' j _ page e Hj' He Hlen) as [e' Hall].
  split; [exact Hj'|]. split; [|split].
  - intros i. unfold delete_button. rewrite Hall. reflexivity.
  - unfold edit_button.
    destruct (previews_Raise s' j (S j) page e Hj' He (Nat.lt_succ_diag_r j))
      as [e'' ->].
    reflexivity.
  - exists e'. unfold generate_button. rewrite Hall. reflexivity.
Qed.

Lemma replace_no_old (old new : ascii) (s : string) (c : ascii) :
  old <> new -> In c (list_ascii_of_string (replace old new s)) -> c <> old.
Proof.
  intros Hne. induction s as [|a s IH]; cbn [replace list_ascii_of_string In];
    [tauto|].
  intros [<-|Hin]; [|auto].
  destruct (Ascii.eqb_spec a old); [congruence | assumption].
Qed.

Lemma list_ascii_of_string_app (s1 s2 : string) :
  list_ascii_of_string (s1 ++ s2) =
  list_ascii_of_string s1 ++ list_ascii_of_string s2.
Proof.
  induction s1 as [|a s1 IH]; cbn [append list_ascii_of_string app];
    [reflexivity | now rewrite IH].
Qed.

Lemma append_length (s1 s2 : string) :
  String.length (s1 ++ s2) = (String.length s1 + String.length s2)%nat.
Proof.
  induction s1 as [|a s1 IH]; cbn [append String.length Nat.add];
    [reflexivity | now rewrite IH].
Qed.

Lemma replace_length (old new : ascii) (s : string) :
  String.length (replace old new s) = String.length s.
Proof.
  induction s as [|a s IH]; cbn [replace String.length]; [reflexivity | now rewrite IH].
Qed.

(** X18. When "Generate PDF" offers a download, every page has its
    preview, the session has pages, the project name and the author
    are not blank, the report has one page per page of the session,
    and the name of the file is the project name with every space
    replaced, followed by "_Photo_Report.pdf": it holds no space. *)
Theorem generate_button_download (s : Session)
    (project_name username report_date : string)
    (data : list (list Pdf.pdf_op)) (name : string) :
  generate_button _ Image_open s project_name username report_date
  = Ok (Download data name) ->
  (exists thumbs, previews _ Image_open s (List.length (pages _ s)) = Ok thumbs /\
                  List.length thumbs = List.length (pages _ s)) /\
  pages _ s <> [] /\
  truthy (strip project_name) = true /\ truthy (strip username) = true /\
  Pdf.generate_pdf _ Image_open project_name username report_date (pages _ s)
  = Ok data /\
  List.length data = List.length (pages _ s) /\
  name = (replace " " "_" project_name ++ "_Photo_Report.pdf")%string /\
  String.length name = (String.length project_name + 17)%nat /\
  forall c, In c (list_ascii_of_string name) -> c <> " "%char.
Proof.
  unfold generate_button. intros H.
  apply bind_Ok in H. destruct H as (thumbs & Hthumbs & H).
  split.
  { exists thumbs. split; [exact Hthumbs|].
    unfold previews in Hthumbs. apply mapM_Ok_length in Hthumbs.
    now rewrite firstn_all in Hthumbs. }
  destruct (pages _ s) as [|page0 rest] eqn:Hpages; [discriminate|].
  destruct (truthy (strip project_name)) eqn:Hp; cbn [negb orb] in H;
    [|discriminate].
  destruct (truthy (strip username)) eqn:Hu; cbn [negb orb] in H;
    [|discriminate].
  apply bind_Ok in H. destruct H as (doc & Hdoc & H).
  injection H as <- <-.
  split; [discriminate|]. split; [reflexivity|]. split; [reflexivity|].
  split; [exact Hdoc|]. split.
  { rewrite generate_pdf_pages in Hdoc. apply mapM_Ok_length in Hdoc.
    now rewrite enumerate_length in Hdoc. }
  unfold file_name. split; [reflexivity|]. split.
  - rewrite append_length, replace_length. reflexivity.
  - intros c Hc. rewrite list_ascii_of_string_app in Hc.
    apply in_app_or in Hc. destruct Hc as [Hc|Hc].
    + apply (replace_no_old " " "_" project_name c); [discriminate | exact Hc].
    + cbn in Hc. intros ->.
      repeat (destruct Hc as [Hc|Hc]; [discriminate|]). exact Hc.
Qed.

End AppButtons.

(** ** Blank texts *)

Lemma lstrip_empty_iff (s : string) :
  App.lstrip s = EmptyString <->
  forall c, In c (list_ascii_of_string s) -> App.isspace c = true.
Proof.
  induction s as [|a s IH]; cbn [App.lstrip list_ascii_of_string In].
  - split; [tauto | reflexivity].
  - destruct (App.isspace a) eqn:Ha.
    + rewrite IH. split.
      * intros H c [<-|Hc]; auto.
      * intros H c Hc. auto.
    + split; [discriminate|].
      intros H. specialize (H a (or_introl eq_refl)). congruence.
Qed.

Lemma lstrip_head (s : string) (c : ascii) (r : string) :
  App.lstrip s = String c r -> App.isspace c = false.
Proof.
  induction s as [|a s IH]; cbn [App.lstrip]; [discriminate|].
  destruct (App.isspace a) eqn:Ha; [exact IH|].
  intros [= <- _]. exact Ha.
Qed.

Lemma rstrip_head (c : ascii) (r : string) :
  App.isspace c = false -> App.rstrip (String c r) <> EmptyString.
Proof.
  intros Hc. cbn [App.rstrip]. destruct (App.rstrip r); [rewrite Hc|]; discriminate.
Qed.

(** [s.strip()] is empty exactly when [s] holds white space only. *)
Lemma strip_blank_iff (s : string) :
  App.truthy (App.strip s) = false <->
  forall c, In c (list_ascii_of_string s) -> App.isspace c = true.
Proof.
  rewrite <- lstrip_empty_iff. unfold App.strip.
  destruct (App.lstrip s) as [|c r] eqn:Hl.
  - split; reflexivity.
  - split; [|discriminate].
    pose proof (rstrip_head c r (lstrip_head _ _ _ Hl)) as Hne.
    destruct (App.rstrip (String c r)); [contradiction | discriminate].
Qed.

Lemma all_space_or_not (l : list ascii) :
  (forall c, In c l -> App.isspace c = true) \/
  (exists c, In c l /\ App.isspace c = false).
Proof.
  induction l as [|a l [IH|(c & Hc & Hs)]].
  - left. intros c [].
  - destruct (App.isspace a) eqn:Ha.
    + left. intros c [<-|Hc]; auto.
    + right. exists a. split; [now left | exact Ha].
  - right. exists c. split; [now right | exact Hs].
Qed.

Lemma strip_not_blank_iff (s : string) :
  App.truthy (App.strip s) = true <->
  exists c, In c (list_ascii_of_string s) /\ App.isspace c = false.
Proof.
  split.
  - intros H.
    destruct (all_space_or_not (list_ascii_of_string s)) as [Hall|Hex];
      [|exact Hex].
    apply strip_blank_iff in Hall. congruence.
  - intros (c & Hc & Hs).
    destruct (App.truthy (App.strip s)) eqn:E; [reflexivity|].
    rewrite strip_blank_iff in E. rewrite (E c Hc) in Hs. discriminate.
Qed.

Section AddButton.

Import App.

Variable UploadedFile : Type.

(** X13. "Add Page" accepts its input exactly when there are 1 to 4 files
    and the description has a character that is not white space; it
    then appends one page holding the input and closes the edit form.
    Otherwise it warns and leaves the session as it is. *)
Theorem add_button_accepts_iff (s : Session UploadedFile)
    (new_images : list UploadedFile) (new_title new_description : string) :
  let accepted :=
    (1 <= List.length new_images <= 4)%nat /\
    exists c, In c (list_ascii_of_string new_description) /\ isspace c = false in
  (accepted ->
   add_button _ s new_images new_title new_description =
   ({| pages := pages _ s ++ [ {| images := new_images;
                                  title := new_title;
                                  description := new_description |} ];
       edit_index := None |},
    success "Page added!")) /\
  (~ accepted ->
   fst (add_button _ s new_images new_title new_description) = s /\
   exists w, snd (add_button _ s new_images new_title new_description) = warning w).
Proof.
  cbv zeta. unfold add_button.
  destruct (Z.leb_spec 1 (Z.of_nat (List.length new_images))) as [H1|H1];
    destruct (Z.leb_spec (Z.of_nat (List.length new_images)) 4) as [H4|H4];
    cbn [andb negb].
  2-4: split; [intros [Hn _]; lia | intros _; cbn [fst snd]; eauto].
  destruct (truthy (strip new_description)) eqn:Hd; cbn [negb].
  - split; [reflexivity|].
    intros Hno. exfalso. apply Hno. split; [lia|].
    apply strip_not_blank_iff. exact Hd.
  - split; [|intros _; cbn [fst snd]; eauto].
    intros [_ Hc]. apply strip_not_blank_iff in Hc. congruence.
Qed.

End AddButton.

Section ThumbnailAll.

Import Thumbnail.

Variable UploadedFile : Type.
Variable Image_open : UploadedFile -> result Image.

(** X12. On a page of at most 4 images, the preview pastes every image of
    the page, in order, each scaled from the file at the same index. *)
Theorem thumbnail_pastes_all (page : Page UploadedFile) (thumb : Canvas) :
  generate_thumbnail _ Image_open page = Ok thumb ->
  (List.length (images page) <= 4)%nat ->
  List.length (pasted thumb) = List.length (images page) /\
  forall (k : nat) (f : UploadedFile),
    nth_error (images page) k = Some f ->
    exists orig img xy,
      Image_open f = Ok orig /\
      thumbnail (convert_RGB orig) (img_w, img_h) = Ok img /\
      nth_error (pasted thumb) k = Some (img, xy).
Proof.
  intros H Hn.
  destruct (generate_thumbnail_pasted _ _ _ _ H) as (Hlen & Hnth).
  assert (Hlen' : List.length (pasted thumb) = List.length (images page))
    by (rewrite Hlen; lia).
  split; [exact Hlen'|].
  intros k f Hf.
  assert (Hk : (k < List.length (pasted thumb))%nat)
    by (rewrite Hlen'; apply nth_error_Some; congruence).
  apply nth_error_Some in Hk.
  destruct (nth_error (pasted thumb) k) as [[img xy]|] eqn:Hp; [|congruence].
  destruct (Hnth _ _ _ Hp) as (_ & f' & orig & Hf' & Hopen & Hth & _).
  rewrite Hf in Hf'. injection Hf' as <-.
  exists orig, img, xy. auto.
Qed.

End ThumbnailAll.

(** ** The properties on the example reports *)

(** C1 fails on the code.  The page of three photographs and a
    description of 12 lines has 12 description rows: lines 11 and 12
    are drawn, not dropped. *)
Theorem description_rows_overflow :
  exists ops : list Pdf.pdf_op,
    Pdf.generate_pdf File open_file "Survey" "Dev" "2024-05-01" [crack_page]
    = Ok [ops] /\
    List.length (splitlines (description crack_page)) = 12%nat /\
    List.length (Pdf.description_rows ops) = 12%nat /\
    Pdf.description_rows ops = splitlines (description crack_page) /\
    nth_error (Pdf.description_rows ops) 11 = Some "line 12"%string.
Proof.
  eexists. split; [vm_compute; reflexivity|].
  repeat split; vm_compute; reflexivity.
Qed.


Lemma image_centered_witness :
  exists doc : list (list Pdf.pdf_op),
    Pdf.generate_pdf File open_file "Survey" "Dev" "2024-05-01" two_pages = Ok doc /\
    exists ops (cellW cellH : Q),
      nth_error doc 1 = Some ops /\
      Pdf.img_w (Pdf.cols 2) = Ok cellW /\ Pdf.img_h (Pdf.rows 2) = Ok cellH /\
      List.length (Pdf.drawn_images ops) = 2%nat /\
      forall (i : nat) (x y w h : Q),
        nth_error (Pdf.drawn_images ops) i = Some (x, y, w, h) ->
        let cell_x :=
          (Pdf.x_offset + (cellW + Pdf.gap) * (Z.of_nat i mod Pdf.cols 2)%Z)%Q in
        let cell_y :=
          (Pdf.y_offset + (cellH + Pdf.gap) * (Z.of_nat i / Pdf.cols 2)%Z)%Q in
        (x + w / 2 == cell_x + cellW / 2 /\ y + h / 2 == cell_y + cellH / 2)%Q.
Proof.
  eexists. split; [vm_compute; reflexivity|].
  exact (image_centered File open_file "Survey" "Dev" "2024-05-01" two_pages _ 1 _
           eq_refl eq_refl).
Defined.


Lemma page_numbers_sequential_witness :
  exists doc : list (list Pdf.pdf_op),
    Pdf.generate_pdf File open_file "Survey" "Dev" "2024-05-01" two_pages = Ok doc /\
    List.length doc = 2%nat /\
    map Pdf.page_number_text doc = [Some "Page 1"; Some "Page 2"]%string.
Proof.
  eexists. split; [vm_compute; reflexivity|].
  destruct (page_numbers_sequential File open_file "Survey" "Dev" "2024-05-01"
              two_pages _ eq_refl) as (Hlen & _ & Hnums).
  split; [exact Hlen | exact Hnums].
Defined.

Lemma thumbnail_grid_agrees_witness :
  exists thumb : Thumbnail.Canvas,
    Thumbnail.generate_thumbnail File open_file crack_page = Ok thumb /\
    forall (k : nat) (img : Image) (xy : Z * Z),
      nth_error (Thumbnail.pasted thumb) k = Some (img, xy) ->
      0 <= Z.of_nat k / Pdf.cols 3 < Pdf.rows 3 /\
      0 <= Z.of_nat k mod Pdf.cols 3 < Pdf.cols 3 /\
      xy = (Thumbnail.start_x
              + Z.of_nat k mod Pdf.cols 3 * (Thumbnail.img_w + Thumbnail.gap),
            Thumbnail.start_y
              + Z.of_nat k / Pdf.cols 3 * (Thumbnail.img_h + Thumbnail.gap)).
Proof.
  eexists. split; [vm_compute; reflexivity|].
  exact (proj1 (thumbnail_grid_agrees File open_file crack_page _ eq_refl)).
Defined.

Lemma thumbnail_ignores_beyond_fourth_witness :
  (4 < List.length (images fifth_garbage_page))%nat /\
  (forall f, In f (firstn 4 (images fifth_garbage_page)) ->
     exists img, open_file f = Ok img /\
                 0 < fst (size img) /\ 0 < snd (size img)) /\
  (exists thumb : Thumbnail.Canvas,
     Thumbnail.generate_thumbnail File open_file fifth_garbage_page = Ok thumb /\
     List.length (Thumbnail.pasted thumb) = 4%nat) /\
  Thumbnail.generate_thumbnail File open_file fifth_garbage_page =
  Thumbnail.generate_thumbnail File open_file
    {| images := firstn 4 (images fifth_garbage_page);
       title := title fifth_garbage_page;
       description := description fifth_garbage_page |}.
Proof.
  assert (Hn : (4 < List.length (images fifth_garbage_page))%nat) by (cbn; lia).
  assert (Hall : forall f, In f (firstn 4 (images fifth_garbage_page)) ->
            exists img, open_file f = Ok img /\
                        0 < fst (size img) /\ 0 < snd (size img)).
  { intros f Hf. cbn in Hf.
    destruct Hf as [<-|[<-|[<-|[<-|[]]]]];
      (eexists; split; [reflexivity | cbn; lia]). }
  destruct (thumbnail_ignores_beyond_fourth File open_file fifth_garbage_page Hn)
    as (Heq & _ & Htotal).
  split; [exact Hn|]. split; [exact Hall|].
  split; [exact (Htotal Hall) | exact Heq].
Defined.

Lemma thumbnail_image_fits_witness :
  exists (thumb : Thumbnail.Canvas) (img : Image) (xy : Z * Z),
    Thumbnail.generate_thumbnail File open_file crack_page = Ok thumb /\
    nth_error (Thumbnail.pasted thumb) 1 = Some (img, xy) /\
    exists f orig,
      nth_error (images crack_page) 1 = Some f /\
      open_file f = Ok orig /\
      forall w h : Z,
        size orig = (w, h) -> 0 < w -> 0 < h ->
        exists w' h' : Z,
          size img = (w', h') /\
          1 <= w' <= Thumbnail.img_w /\ 1 <= h' <= Thumbnail.img_h /\
          w' <= w /\ h' <= h /\
          ((w', h') = (w, h) \/
           (h' = Thumbnail.img_h /\
            Thumbnail.img_h * w / h - 1 < w' /\ w' < Thumbnail.img_h * w / h + 1)%Q \/
           (w' = Thumbnail.img_w /\
            Thumbnail.img_w * h / w - 1 < h' /\ h' < Thumbnail.img_w * h / w + 1)%Q).
Proof.
  do 3 eexists. split; [vm_compute; reflexivity|].
  split; [vm_compute; reflexivity|].
  apply (thumbnail_image_fits File open_file crack_page _ 1 _ _ eq_refl eq_refl).
Defined.

Lemma undecodable_image_aborts_witness :
  let page := {| images := [photo 400 300; garbage];
                 title := "Roof"%string; description := "Tiles."%string |} in
  In page [page] /\ In garbage (images page) /\
  open_file garbage = Raise UnidentifiedImageError /\
  (exists e', Pdf.generate_pdf File open_file "Survey" "Dev" "2024-05-01" [page]
              = Raise e') /\
  (In garbage (firstn 4 (images page)) ->
   exists e', Thumbnail.generate_thumbnail File open_file page = Raise e').
Proof.
  intros page.
  assert (Hpage : In page [page]) by (left; reflexivity).
  assert (Hf : In garbage (images page)) by (right; left; reflexivity).
  split; [exact Hpage|]. split; [exact Hf|]. split; [reflexivity|].
  exact (undecodable_image_aborts File open_file "Survey" "Dev" "2024-05-01"
           [page] page garbage UnidentifiedImageError Hpage Hf eq_refl).
Defined.

Lemma images_beyond_fourth_below_collage_witness :
  exists doc : list (list Pdf.pdf_op),
    Pdf.generate_pdf File open_file "Survey" "Dev" "2024-05-01" [six_photos_page]
    = Ok doc /\
    (4 < List.length (images six_photos_page))%nat /\
    exists ops,
      nth_error doc 0 = Some ops /\
      List.length (Pdf.drawn_images ops) = List.length (images six_photos_page) /\
      forall (i : nat) (x y w h : Q),
        (4 <= i)%nat ->
        nth_error (Pdf.drawn_images ops) i = Some (x, y, w, h) ->
        2 <= Z.of_nat i
             / Pdf.cols (Z.of_nat (List.length (images six_photos_page))) /\
        (Pdf.y_offset + Pdf.collage_height < y)%Q.
Proof.
  eexists. split; [vm_compute; reflexivity|].
  assert (Hn : (4 < List.length (images six_photos_page))%nat) by (cbn; lia).
  split; [exact Hn|].
  exact (images_beyond_fourth_below_collage File open_file
           "Survey" "Dev" "2024-05-01" [six_photos_page] _ 0 six_photos_page
           eq_refl eq_refl Hn).
Defined.

(** C8, as stated, fails: the aspect ratio is not kept exactly.  A
    photograph of 4032 by 3024 pixels (4:3) is pasted at 133 by 100,
    and an image of 1000 by 1 at 140 by 1. *)
Lemma thumbnail_aspect_not_preserved :
  (exists (thumb : Thumbnail.Canvas) (xy : Z * Z),
      Thumbnail.generate_thumbnail File open_file
        {| images := [photo 4032 3024]; title := "Roof"; description := "Tiles." |}
      = Ok thumb /\
      Thumbnail.pasted thumb = [({| size := (133, 100); mode := "RGB" |}, xy)] /\
      ~ (133 / 100 == 4032 / 3024)%Q) /\
  (exists (thumb : Thumbnail.Canvas) (xy : Z * Z),
      Thumbnail.generate_thumbnail File open_file
        {| images := [photo 1000 1]; title := "Roof"; description := "Tiles." |}
      = Ok thumb /\
      Thumbnail.pasted thumb = [({| size := (140, 1); mode := "RGB" |}, xy)] /\
      ~ (140 / 1 == 1000 / 1)%Q).
Proof.
  split; do 2 eexists; (split; [vm_compute; reflexivity|]);
    (split; [vm_compute; reflexivity|]); intros H; vm_compute in H; discriminate.
Qed.

(** C9, as stated, fails for the preview: the fifth file of the page is
    no image, and [generate_thumbnail] returns a canvas. *)
Lemma thumbnail_survives_fifth_garbage :
  In garbage (images fifth_garbage_page) /\
  open_file garbage = Raise UnidentifiedImageError /\
  exists thumb : Thumbnail.Canvas,
    Thumbnail.generate_thumbnail File open_file fifth_garbage_page = Ok thumb.
Proof.
  split; [cbn; tauto|]. split; [reflexivity|].
  eexists. vm_compute. reflexivity.
Qed.


Lemma photo_placeable (w h : Z) : h <> 0 -> placeable open_file (photo w h).
Proof.
  intros Hh. exists {| size := (w, h); mode := "RGB" |}.
  split; [reflexivity|]. split; [reflexivity | exact Hh].
Qed.


Lemma generate_pdf_first_error_witness :
  Pdf.generate_pdf File open_file "Survey" "Dev" "2024-05-01"
    (two_pages ++ second_garbage_page :: [crack_page])
  = Raise UnidentifiedImageError.
Proof.
  apply (generate_pdf_first_error File open_file "Survey" "Dev" "2024-05-01"
           two_pages [crack_page] second_garbage_page
           [photo 400 300] [photo 300 400] garbage UnidentifiedImageError).
  - eexists. vm_compute. reflexivity.
  - reflexivity.
  - intros f' [<-|[]]. apply photo_placeable. lia.
  - reflexivity.
Defined.


Lemma images_apart_witness :
  exists doc : list (list Pdf.pdf_op),
    Pdf.generate_pdf File open_file "Survey" "Dev" "2024-05-01" [six_photos_page]
    = Ok doc /\
    exists ops,
      nth_error doc 0 = Some ops /\
      forall (i i' : nat) (r r' : Q * Q * Q * Q),
        i <> i' ->
        nth_error (Pdf.drawn_images ops) i = Some r ->
        nth_error (Pdf.drawn_images ops) i' = Some r' ->
        rect_apart r r'.
Proof.
  eexists. split; [vm_compute; reflexivity|].
  exact (images_apart File open_file "Survey" "Dev" "2024-05-01"
           [six_photos_page] _ 0 _ eq_refl eq_refl).
Defined.

Lemma page_layout_witness :
  exists doc : list (list Pdf.pdf_op),
    Pdf.generate_pdf File open_file "Survey" "Dev" "2024-05-01" two_pages = Ok doc /\
    exists ops,
      nth_error doc 1 = Some ops /\
      same_cells (page_cells a4_height default_margin ops)
        ((default_margin, 10, "Survey"%string)
           :: (125%Q, 10, " Subject: North wall"%string)
           :: (135%Q, 10, "Description:"%string)
           :: rows_at 145 (Pdf.description_rows ops)
           ++ [ ((a4_height - 30)%Q, 10, "Created by: Dev"%string);
                ((a4_height - 20)%Q, 10, "Date: 2024-05-01"%string);
                ((a4_height - 10)%Q, 10, "Page 2"%string) ]).
Proof.
  eexists. split; [vm_compute; reflexivity|].
  exact (page_layout a4_height default_margin File open_file
           "Survey" "Dev" "2024-05-01" two_pages _ 1 _ eq_refl eq_refl).
Defined.

Lemma rows_clear_of_footer_witness :
  exists doc : list (list Pdf.pdf_op),
    Pdf.generate_pdf File open_file "Survey" "Dev" "2024-05-01" [crack_page]
    = Ok doc /\
    (List.length (splitlines (description crack_page)) <= 12)%nat /\
    (297 <= a4_height)%Q /\
    exists ops (y_author : Q),
      nth_error doc 0 = Some ops /\
      nth_error (page_cells a4_height default_margin ops)
        (3 + List.length (Pdf.description_rows ops))
      = Some (y_author, 10, "Created by: Dev"%string) /\
      forall (k : nat) (y : Q) (h : Z) (txt : string),
        (3 <= k < 3 + List.length (Pdf.description_rows ops))%nat ->
        nth_error (page_cells a4_height default_margin ops) k = Some (y, h, txt) ->
        (y + inject_Z h <= y_author)%Q.
Proof.
  eexists. split; [vm_compute; reflexivity|].
  assert (Hk : (List.length (splitlines (description crack_page)) <= 12)%nat)
    by (vm_compute; lia).
  assert (Hh : (297 <= a4_height)%Q) by (apply Qlt_le_weak; reflexivity).
  split; [exact Hk|]. split; [exact Hh|].
  exact (rows_clear_of_footer a4_height default_margin File open_file
           "Survey" "Dev" "2024-05-01" [crack_page] _ 0 _ eq_refl eq_refl Hk Hh).
Defined.

Lemma thirteenth_row_on_footer_witness :
  exists doc : list (list Pdf.pdf_op),
    Pdf.generate_pdf File open_file "Survey" "Dev" "2024-05-01" [thirteen_lines_page]
    = Ok doc /\
    (13 <= List.length (splitlines (description thirteen_lines_page)))%nat /\
    (295 < a4_height)%Q /\ (a4_height < 305)%Q /\
    exists ops (y_author y_row : Q) (line : string),
      nth_error doc 0 = Some ops /\
      nth_error (page_cells a4_height default_margin ops)
        (3 + List.length (Pdf.description_rows ops))
      = Some (y_author, 10, "Created by: Dev"%string) /\
      nth_error (splitlines (description thirteen_lines_page)) 12 = Some line /\
      nth_error (page_cells a4_height default_margin ops) 15 = Some (y_row, 10, line) /\
      (y_row < y_author /\ y_author < y_row + 10)%Q.
Proof.
  eexists. split; [vm_compute; reflexivity|].
  assert (Hk : (13 <= List.length (splitlines (description thirteen_lines_page)))%nat)
    by (vm_compute; lia).
  split; [exact Hk|]. split; [reflexivity|]. split; [reflexivity|].
  exact (thirteenth_row_on_footer a4_height default_margin File open_file
           "Survey" "Dev" "2024-05-01" [thirteen_lines_page] _ 0 _
           eq_refl eq_refl Hk eq_refl eq_refl).
Defined.

Lemma thumbnail_texts_witness :
  exists thumb : Thumbnail.Canvas,
    Thumbnail.generate_thumbnail File open_file crack_page = Ok thumb /\
    Thumbnail.canvas_size thumb = (600, 400) /\
    List.length (canvas_texts thumb) = 7%nat.
Proof.
  eexists. split; [vm_compute; reflexivity|].
  destruct (thumbnail_texts File open_file crack_page _ eq_refl)
    as (Hsize & _ & Hlen).
  split; [exact Hsize | exact Hlen].
Defined.

Lemma photos_positive (page : Page File) :
  Forall (fun f => match f with
                   | Some img => 0 < fst (size img) /\ 0 < snd (size img)
                   | None => True
                   end) (firstn 4 (images page)) ->
  forall f img, In f (firstn 4 (images page)) -> open_file f = Ok img ->
                0 < fst (size img) /\ 0 < snd (size img).
Proof.
  intros Hall f img Hin Hopen. rewrite Forall_forall in Hall.
  specialize (Hall f Hin). destruct f as [img'|]; [|discriminate].
  injection Hopen as <-. exact Hall.
Qed.

Lemma thumbnail_returns_iff_witness :
  (exists thumb, Thumbnail.generate_thumbnail File open_file second_garbage_page
                 = Ok thumb) <->
  (forall f, In f (firstn 4 (images second_garbage_page)) ->
             exists img, open_file f = Ok img).
Proof.
  apply (thumbnail_returns_iff File open_file second_garbage_page).
  apply photos_positive. repeat constructor.
Defined.

Lemma thumbnail_images_apart_witness :
  exists thumb : Thumbnail.Canvas,
    Thumbnail.generate_thumbnail File open_file crack_page = Ok thumb /\
    forall e, In e (Thumbnail.pasted thumb) ->
      rect_inside (pasted_rect e)
        (0%Q, 0%Q, inject_Z (fst (Thumbnail.canvas_size thumb)),
         inject_Z (snd (Thumbnail.canvas_size thumb))).
Proof.
  eexists. split; [vm_compute; reflexivity|].
  refine (proj1 (thumbnail_images_apart File open_file crack_page _ eq_refl _)).
  apply photos_positive. repeat constructor.
Defined.

Lemma thumbnail_pastes_all_witness :
  exists thumb : Thumbnail.Canvas,
    Thumbnail.generate_thumbnail File open_file crack_page = Ok thumb /\
    (List.length (images crack_page) <= 4)%nat /\
    List.length (Thumbnail.pasted thumb) = List.length (images crack_page).
Proof.
  eexists. split; [vm_compute; reflexivity|].
  assert (Hn : (List.length (images crack_page) <= 4)%nat) by (cbn; lia).
  split; [exact Hn|].
  exact (proj1 (thumbnail_pastes_all File open_file crack_page _ eq_refl Hn)).
Defined.

Lemma description_rows_padded_witness :
  exists doc : list (list Pdf.pdf_op),
    Pdf.generate_pdf File open_file "Survey" "Dev" "2024-05-01" two_pages = Ok doc /\
    (List.length (splitlines (description (nth 1 two_pages crack_page))) <= 10)%nat /\
    exists ops,
      nth_error doc 1 = Some ops /\
      List.length (Pdf.description_rows ops) = 10%nat /\
      Pdf.description_rows ops =
      ["Two views."; "Taken at noon."; ""; ""; ""; ""; ""; ""; ""; ""]%string.
Proof.
  eexists. split; [vm_compute; reflexivity|].
  assert (Hk : (List.length (splitlines (description (nth 1 two_pages crack_page)))
                <= 10)%nat) by (vm_compute; lia).
  split; [exact Hk|].
  exact (description_rows_padded File open_file "Survey" "Dev" "2024-05-01"
           two_pages _ 1 _ eq_refl eq_refl Hk).
Defined.

Lemma clicks_keep_pages_well_formed_witness :
  Forall well_formed (App.pages File (App.new_session File)) /\
  Forall checked_click some_clicks /\
  Forall well_formed
    (App.pages File
       (App.after_clicks File open_file (App.new_session File) some_clicks)).
Proof.
  assert (H0 : Forall well_formed (App.pages File (App.new_session File)))
    by constructor.
  assert (Hcs : Forall checked_click some_clicks).
  { repeat constructor. }
  split; [exact H0|]. split; [exact Hcs|].
  exact (clicks_keep_pages_well_formed File open_file (App.new_session File)
           some_clicks H0 Hcs).
Defined.

Lemma save_button_stores_unchecked_witness :
  let five := [photo 1 1; photo 2 2; photo 3 3; photo 4 4; photo 5 5] in
  (exists thumbs, App.previews File open_file editing_session 1 = Ok thumbs) /\
  App.edit_index File editing_session = Some 0%nat /\
  nth_error
    (App.pages File
       (fst (App.save_button File open_file editing_session 0 "Entrance" "" five)))
    0
  = Some {| images := five; title := "Entrance"; description := "" |}.
Proof.
  intros five.
  assert (Hp : exists thumbs,
             App.previews File open_file editing_session 1 = Ok thumbs)
    by (eexists; vm_compute; reflexivity).
  split; [exact Hp|]. destruct Hp as [thumbs Hp].
  split; [reflexivity|].
  exact (proj1 (save_button_stores_unchecked File open_file editing_session 0
                  (nth 0 two_pages crack_page) thumbs "Entrance" "" five
                  Hp eq_refl eq_refl)).
Defined.

Lemma delete_button_shifts_edit_witness :
  (exists thumbs, App.previews File open_file editing_session 2 = Ok thumbs) /\
  (0 < List.length (App.pages File editing_session))%nat /\
  App.edit_index File editing_session = Some 0%nat /\
  (0 <= 0)%nat /\
  App.edit_index File (fst (App.delete_button File open_file editing_session 0))
  = Some 0%nat /\
  nth_error
    (App.pages File (fst (App.delete_button File open_file editing_session 0))) 0
  = nth_error two_pages 1.
Proof.
  assert (Hp : exists thumbs,
             App.previews File open_file editing_session 2 = Ok thumbs)
    by (eexists; vm_compute; reflexivity).
  split; [exact Hp|]. destruct Hp as [thumbs Hp].
  assert (Hi : (0 < List.length (App.pages File editing_session))%nat) by (cbn; lia).
  split; [exact Hi|]. split; [reflexivity|]. split; [lia|].
  destruct (delete_button_shifts_edit File open_file editing_session 0 0 thumbs
              Hp Hi eq_refl (le_n 0))
    as (_ & He & Hn & _).
  split; [exact He | exact Hn].
Defined.

Lemma broken_page_stays_witness :
  let s := {| App.pages := [second_garbage_page]; App.edit_index := None |} in
  let s' := App.after_clicks File open_file s
              [App.Delete File 0; App.Edit File 0;
               App.Add File [photo 400 300] "Gate" "Seen."] in
  Thumbnail.generate_thumbnail File open_file second_garbage_page
  = Raise UnidentifiedImageError /\
  nth_error (App.pages File s') 0 = Some second_garbage_page /\
  exists e',
    App.generate_button File open_file s' "Survey" "Dev" "2024-05-01" = Raise e'.
Proof.
  intros s s'.
  assert (He : Thumbnail.generate_thumbnail File open_file second_garbage_page
               = Raise UnidentifiedImageError) by (vm_compute; reflexivity).
  split; [exact He|].
  destruct (broken_page_stays File open_file s 0 second_garbage_page
              UnidentifiedImageError
              [App.Delete File 0; App.Edit File 0;
               App.Add File [photo 400 300] "Gate" "Seen."]
              "Survey" "Dev" "2024-05-01" eq_refl He)
    as (Hj & _ & _ & Hg).
  split; [exact Hj | exact Hg].
Defined.

Lemma generate_button_download_witness :
  exists data : list (list Pdf.pdf_op),
    App.generate_button File open_file editing_session
      "Site survey 7" "Dev" "2024-05-01"
    = Ok (App.Download data "Site_survey_7_Photo_Report.pdf") /\
    List.length data = 2%nat /\
    forall c, In c (list_ascii_of_string "Site_survey_7_Photo_Report.pdf") ->
              c <> " "%char.
Proof.
  assert (H : exists data : list (list Pdf.pdf_op),
             App.generate_button File open_file editing_session
               "Site survey 7" "Dev" "2024-05-01"
             = Ok (App.Download data "Site_survey_7_Photo_Report.pdf"))
    by (eexists; vm_compute; reflexivity).
  destruct H as [data H]. exists data. split; [exact H|].
  destruct (generate_button_download File open_file editing_session
              "Site survey 7" "Dev" "2024-05-01" _ _ H)
    as (_ & _ & _ & _ & _ & Hlen & _ & _ & Hsp).
  split; [exact Hlen | exact Hsp].
Defined.

Lemma add_button_accepts_iff_witness :
  App.add_button File (App.new_session File) [photo 400 300] "Gate" " Seen. "
  = ({| App.pages := [ {| images := [photo 400 300];
                          title := "Gate";
                          description := " Seen. " |} ];
        App.edit_index := None |},
     App.success "Page added!").
Proof.
  apply (proj1 (add_button_accepts_iff File (App.new_session File)
                  [photo 400 300] "Gate" " Seen. ")).
  split; [cbn; lia|].
  exists "S"%char. split; [cbn; tauto | reflexivity].
Defined.
